(** * Spec2Rocq: a functional model of [src/imgui_nx/imgui_nx.cpp]

    The file bridges the console SDK (applet mode changes, touch screen,
    shared fonts) and the Dear ImGui I/O structure.  It owns a handful of
    file-scope variables ([s_width], [s_height], [s_mousePos], the applet
    hook cookie) and the two function-local statics of [newFrame].

    The model is a state-passing one:
    - C++ [float] is IEEE-754 binary32, taken from [SpecFloat] at precision
      24 and maximal exponent 128;
    - the file-scope variables, [ImGui::GetIO()] and [ImGui::GetStyle()]
      are fields of one [State] record;
    - what the SDK returns to a call ([appletGetOperationMode],
      [hidTouchCount], [hidTouchRead], [plGetSharedFontByType],
      [steady_clock::now]) is an argument of the modelled function;
    - SDK calls with an effect on the outside ([printf], [appletHook],
      [appletUnhook]) are appended to a log;
    - the Dear ImGui methods, whose code is not part of this file, are the
      members of a class of operations that every statement quantifies over. *)

From Stdlib Require Import ZArith NArith List String Ascii Bool Lia.
From Stdlib Require Import Floats.SpecFloat.
From stdpp Require Import base list.

Local Open Scope Z_scope.

(** ** Binary32 arithmetic *)

Module F32.

Definition prec : Z := 24.
Definition emax : Z := 128.

Definition t : Type := spec_float.

(** Conversion of an integer to [float] (round to nearest, ties to even). *)
Definition of_Z (z : Z) : t := binary_normalize prec emax z 0 false.

Definition div (a b : t) : t := SFdiv prec emax a b.
Definition ltb (a b : t) : bool := SFltb a b.
Definition leb (a b : t) : bool := SFleb a b.

(** The literal [n.d f] with decimal value [num / 10]: both [num] and [10]
    are exact in binary32, and a correctly rounded quotient is the float
    nearest to the decimal value, which is what the compiler emits. *)
Definition tenths (num : Z) : t := div (of_Z num) (of_Z 10).

Definition is_nan (a : t) : bool :=
  match a with S754_nan => true | _ => false end.

(** [std::clamp(v, lo, hi)]: [lo] if [v < lo], [hi] if [hi < v], else [v]. *)
Definition clamp (v lo hi : t) : t :=
  if ltb v lo then lo else if ltb hi v then hi else v.

(** The integer a float stands for, when it stands for one. *)
Definition to_Z (a : t) : option Z :=
  match a with
  | S754_zero _ => Some 0
  | S754_finite s m e =>
      let v := if s then Z.neg m else Z.pos m in
      if 0 <=? e then Some (v * 2 ^ e)
      else if v mod 2 ^ (- e) =? 0 then Some (v / 2 ^ (- e)) else None
  | _ => None
  end.

End F32.

(** The float literals of the source. *)
Definition f_0_0 : F32.t := F32.of_Z 0.
Definition f_1_0 : F32.t := F32.of_Z 1.
Definition f_20_0 : F32.t := F32.of_Z 20.
Definition f_720_0 : F32.t := F32.of_Z 720.
Definition f_1080_0 : F32.t := F32.of_Z 1080.
Definition f_1280_0 : F32.t := F32.of_Z 1280.
Definition f_1920_0 : F32.t := F32.of_Z 1920.
Definition f_0_9 : F32.t := F32.tenths 9.
Definition f_1_6 : F32.t := F32.tenths 16.
Definition f_1_9 : F32.t := F32.tenths 19.
Definition f_2_6 : F32.t := F32.tenths 26.

(** ** Integer conversions *)

(** [u32] to [int], as in [standard.size] passed for an [int] parameter. *)
Definition u32_to_int (n : N) : Z :=
  let z := Z.of_N n mod 2 ^ 32 in
  if z <? 2 ^ 31 then z else z - 2 ^ 32.

(** Difference of two [steady_clock] readings: a 64-bit signed tick count. *)
Definition wrap_s64 (z : Z) : Z := (z + 2 ^ 63) mod 2 ^ 64 - 2 ^ 63.

Definition in_s64 (z : Z) : Prop := - 2 ^ 63 <= z < 2 ^ 63.

(** [steady_clock::time_point]: ticks of one nanosecond. *)
Definition time_point : Type := Z.

Definition time_diff (a b : time_point) : Z := wrap_s64 (a - b).

(** [std::chrono::duration<float>(d).count()] for a nanosecond duration [d]:
    the tick count converted to [float], divided by [float(1000000000)]. *)
Definition duration_float_count (d : Z) : F32.t :=
  F32.div (F32.of_Z d) (F32.of_Z 1000000000).

(** ** Data of the SDK *)

(** [AppletHookType]: only [AppletHookType_OnOperationMode] is named by the
    file; [AppletHookType_other k] stands for each of the other values. *)
Inductive AppletHookType : Type :=
  | AppletHookType_OnOperationMode
  | AppletHookType_other (k : nat).

Definition AppletHookType_eqb (a b : AppletHookType) : bool :=
  match a, b with
  | AppletHookType_OnOperationMode, AppletHookType_OnOperationMode => true
  | AppletHookType_other i, AppletHookType_other j => Nat.eqb i j
  | _, _ => false
  end.

(** [AppletOperationMode]: the two enumerators, and
    [AppletOperationMode_other v] for a value that is neither of them. *)
Inductive AppletOperationMode : Type :=
  | AppletOperationMode_Handheld
  | AppletOperationMode_Docked
  | AppletOperationMode_other (v : Z).

Definition AppletOperationMode_eqb (a b : AppletOperationMode) : bool :=
  match a, b with
  | AppletOperationMode_Handheld, AppletOperationMode_Handheld => true
  | AppletOperationMode_Docked, AppletOperationMode_Docked => true
  | AppletOperationMode_other i, AppletOperationMode_other j => Z.eqb i j
  | _, _ => false
  end.

(** [touchPosition]: the two members the file reads, both [u32]. *)
Record touchPosition : Type := mk_touchPosition {
  px : N;
  py : N
}.

(** [PlFontData]: the two members the file reads. *)
Record PlFontData : Type := mk_PlFontData {
  address : Z;
  size : N
}.

(** SDK calls that act on the outside world, in the order they are made. *)
Inductive SdkCall : Type :=
  | Call_printf (msg : string)
  | Call_appletHook      (* appletHook(&s_appletHookCookie, handleAppletHook, nullptr) *)
  | Call_appletUnhook.   (* appletUnhook(&s_appletHookCookie) *)

Definition SdkCall_is_hook (c : SdkCall) : bool :=
  match c with Call_appletHook => true | _ => false end.

Definition newline : string := String (ascii_of_nat 10) EmptyString.

(** ** Data of Dear ImGui *)

Module ImVec2.
Record t : Type := mk { x : F32.t; y : F32.t }.
End ImVec2.

(** The parts of the ImGui and SDK types that the file never names. *)
Class LibTypes : Type := {
  StyleRest : Type;
  AtlasRest : Type;
  FontConfigRest : Type;
  IORest : Type;
  Result : Type
}.

Section Types.
Context {types : LibTypes}.

Record ImFontConfig : Type := mk_ImFontConfig {
  FontDataOwnedByAtlas : bool;
  MergeMode : bool;
  cfg_rest : FontConfigRest
}.

Record ImFontAtlas : Type := mk_ImFontAtlas {
  Flags : Z;
  atlas_rest : AtlasRest
}.

Record ImGuiStyle : Type := mk_ImGuiStyle {
  WindowRounding : F32.t;
  style_rest : StyleRest
}.

Record ImGuiIO : Type := mk_ImGuiIO {
  ConfigFlags : Z;
  DisplaySize : ImVec2.t;
  DeltaTime : F32.t;
  IniFilename : option string;
  Fonts : ImFontAtlas;
  FontGlobalScale : F32.t;
  DisplayFramebufferScale : ImVec2.t;
  MouseDrawCursor : bool;
  MousePos : ImVec2.t;
  MouseDown : list bool;            (* bool MouseDown[5] *)
  io_rest : IORest
}.

End Types.

(** The operations of Dear ImGui and the macros and constants of the two
    headers that the file uses. *)
Class LibApi {types : LibTypes} : Type := {
  R_SUCCEEDED : Result -> bool;
  ImFontConfig_ctor : ImFontConfig;
  GetGlyphRangesDefault : ImFontAtlas -> list Z;
  (* data, size, size_pixels, font_cfg, glyph_ranges *)
  AddFontFromMemoryTTF :
    Z -> Z -> F32.t -> ImFontConfig -> list Z -> ImFontAtlas -> ImFontAtlas;
  GetTexDataAsAlpha8 : ImFontAtlas -> ImFontAtlas;
  Build : ImFontAtlas -> ImFontAtlas;
  ScaleAllSizes : F32.t -> ImGuiStyle -> ImGuiStyle;
  ImFontAtlasFlags_NoPowerOfTwoHeight : Z;
  ImGuiConfigFlags_IsTouchScreen : Z
}.

(** ** The program state and the functions of the file *)

Section Backend.
Context {types : LibTypes} {api : LibApi}.

(** Field assignments on the ImGui structures. *)

Definition cfg_set_FontDataOwnedByAtlas (b : bool) (c : ImFontConfig) : ImFontConfig :=
  {| FontDataOwnedByAtlas := b; MergeMode := MergeMode c; cfg_rest := cfg_rest c |}.

Definition cfg_set_MergeMode (b : bool) (c : ImFontConfig) : ImFontConfig :=
  {| FontDataOwnedByAtlas := FontDataOwnedByAtlas c; MergeMode := b;
     cfg_rest := cfg_rest c |}.

Definition atlas_set_Flags (f : Z) (a : ImFontAtlas) : ImFontAtlas :=
  {| Flags := f; atlas_rest := atlas_rest a |}.

Definition style_set_WindowRounding (r : F32.t) (st : ImGuiStyle) : ImGuiStyle :=
  {| WindowRounding := r; style_rest := style_rest st |}.

Definition io_set_ConfigFlags (v : Z) (io : ImGuiIO) : ImGuiIO :=
  {| ConfigFlags := v; DisplaySize := DisplaySize io; DeltaTime := DeltaTime io;
     IniFilename := IniFilename io; Fonts := Fonts io;
     FontGlobalScale := FontGlobalScale io;
     DisplayFramebufferScale := DisplayFramebufferScale io;
     MouseDrawCursor := MouseDrawCursor io; MousePos := MousePos io;
     MouseDown := MouseDown io; io_rest := io_rest io |}.

Definition io_set_DisplaySize (v : ImVec2.t) (io : ImGuiIO) : ImGuiIO :=
  {| ConfigFlags := ConfigFlags io; DisplaySize := v; DeltaTime := DeltaTime io;
     IniFilename := IniFilename io; Fonts := Fonts io;
     FontGlobalScale := FontGlobalScale io;
     DisplayFramebufferScale := DisplayFramebufferScale io;
     MouseDrawCursor := MouseDrawCursor io; MousePos := MousePos io;
     MouseDown := MouseDown io; io_rest := io_rest io |}.

Definition io_set_DeltaTime (v : F32.t) (io : ImGuiIO) : ImGuiIO :=
  {| ConfigFlags := ConfigFlags io; DisplaySize := DisplaySize io; DeltaTime := v;
     IniFilename := IniFilename io; Fonts := Fonts io;
     FontGlobalScale := FontGlobalScale io;
     DisplayFramebufferScale := DisplayFramebufferScale io;
     MouseDrawCursor := MouseDrawCursor io; MousePos := MousePos io;
     MouseDown := MouseDown io; io_rest := io_rest io |}.

Definition io_set_IniFilename (v : option string) (io : ImGuiIO) : ImGuiIO :=
  {| ConfigFlags := ConfigFlags io; DisplaySize := DisplaySize io;
     DeltaTime := DeltaTime io; IniFilename := v; Fonts := Fonts io;
     FontGlobalScale := FontGlobalScale io;
     DisplayFramebufferScale := DisplayFramebufferScale io;
     MouseDrawCursor := MouseDrawCursor io; MousePos := MousePos io;
     MouseDown := MouseDown io; io_rest := io_rest io |}.

Definition io_set_Fonts (v : ImFontAtlas) (io : ImGuiIO) : ImGuiIO :=
  {| ConfigFlags := ConfigFlags io; DisplaySize := DisplaySize io;
     DeltaTime := DeltaTime io; IniFilename := IniFilename io; Fonts := v;
     FontGlobalScale := FontGlobalScale io;
     DisplayFramebufferScale := DisplayFramebufferScale io;
     MouseDrawCursor := MouseDrawCursor io; MousePos := MousePos io;
     MouseDown := MouseDown io; io_rest := io_rest io |}.

Definition io_set_FontGlobalScale (v : F32.t) (io : ImGuiIO) : ImGuiIO :=
  {| ConfigFlags := ConfigFlags io; DisplaySize := DisplaySize io;
     DeltaTime := DeltaTime io; IniFilename := IniFilename io; Fonts := Fonts io;
     FontGlobalScale := v;
     DisplayFramebufferScale := DisplayFramebufferScale io;
     MouseDrawCursor := MouseDrawCursor io; MousePos := MousePos io;
     MouseDown := MouseDown io; io_rest := io_rest io |}.

Definition io_set_DisplayFramebufferScale (v : ImVec2.t) (io : ImGuiIO) : ImGuiIO :=
  {| ConfigFlags := ConfigFlags io; DisplaySize := DisplaySize io;
     DeltaTime := DeltaTime io; IniFilename := IniFilename io; Fonts := Fonts io;
     FontGlobalScale := FontGlobalScale io;
     DisplayFramebufferScale := v;
     MouseDrawCursor := MouseDrawCursor io; MousePos := MousePos io;
     MouseDown := MouseDown io; io_rest := io_rest io |}.

Definition io_set_MouseDrawCursor (v : bool) (io : ImGuiIO) : ImGuiIO :=
  {| ConfigFlags := ConfigFlags io; DisplaySize := DisplaySize io;
     DeltaTime := DeltaTime io; IniFilename := IniFilename io; Fonts := Fonts io;
     FontGlobalScale := FontGlobalScale io;
     DisplayFramebufferScale := DisplayFramebufferScale io;
     MouseDrawCursor := v; MousePos := MousePos io;
     MouseDown := MouseDown io; io_rest := io_rest io |}.

Definition io_set_MousePos (v : ImVec2.t) (io : ImGuiIO) : ImGuiIO :=
  {| ConfigFlags := ConfigFlags io; DisplaySize := DisplaySize io;
     DeltaTime := DeltaTime io; IniFilename := IniFilename io; Fonts := Fonts io;
     FontGlobalScale := FontGlobalScale io;
     DisplayFramebufferScale := DisplayFramebufferScale io;
     MouseDrawCursor := MouseDrawCursor io; MousePos := v;
     MouseDown := MouseDown io; io_rest := io_rest io |}.

Definition io_set_MouseDown (v : list bool) (io : ImGuiIO) : ImGuiIO :=
  {| ConfigFlags := ConfigFlags io; DisplaySize := DisplaySize io;
     DeltaTime := DeltaTime io; IniFilename := IniFilename io; Fonts := Fonts io;
     FontGlobalScale := FontGlobalScale io;
     DisplayFramebufferScale := DisplayFramebufferScale io;
     MouseDrawCursor := MouseDrawCursor io; MousePos := MousePos io;
     MouseDown := v; io_rest := io_rest io |}.

(** The state the file reads and writes.  [s_lastMouseUpdate] is declared
    by the file and never used; the hook cookie is written by the SDK only,
    through the two calls kept in [sdk_log]. *)
Record State : Type := mk_State {
  s_width : F32.t;
  s_height : F32.t;
  s_mousePos : ImVec2.t;
  (* the statics [start] and [prev] of newFrame, once initialised *)
  newFrame_statics : option (time_point * time_point);
  GetIO : ImGuiIO;                  (* ImGui::GetIO() *)
  GetStyle : ImGuiStyle;            (* ImGui::GetStyle() *)
  sdk_log : list SdkCall
}.

Definition set_size (w h : F32.t) (s : State) : State :=
  {| s_width := w; s_height := h; s_mousePos := s_mousePos s;
     newFrame_statics := newFrame_statics s; GetIO := GetIO s;
     GetStyle := GetStyle s; sdk_log := sdk_log s |}.

Definition set_mousePos (p : ImVec2.t) (s : State) : State :=
  {| s_width := s_width s; s_height := s_height s; s_mousePos := p;
     newFrame_statics := newFrame_statics s; GetIO := GetIO s;
     GetStyle := GetStyle s; sdk_log := sdk_log s |}.

Definition set_statics (c : option (time_point * time_point)) (s : State) : State :=
  {| s_width := s_width s; s_height := s_height s; s_mousePos := s_mousePos s;
     newFrame_statics := c; GetIO := GetIO s;
     GetStyle := GetStyle s; sdk_log := sdk_log s |}.

Definition set_io (io : ImGuiIO) (s : State) : State :=
  {| s_width := s_width s; s_height := s_height s; s_mousePos := s_mousePos s;
     newFrame_statics := newFrame_statics s; GetIO := io;
     GetStyle := GetStyle s; sdk_log := sdk_log s |}.

Definition set_style (st : ImGuiStyle) (s : State) : State :=
  {| s_width := s_width s; s_height := s_height s; s_mousePos := s_mousePos s;
     newFrame_statics := newFrame_statics s; GetIO := GetIO s;
     GetStyle := st; sdk_log := sdk_log s |}.

Definition sdk_call (c : SdkCall) (s : State) : State :=
  {| s_width := s_width s; s_height := s_height s; s_mousePos := s_mousePos s;
     newFrame_statics := newFrame_statics s; GetIO := GetIO s;
     GetStyle := GetStyle s; sdk_log := sdk_log s ++ [c] |}.

(** The values of the file-scope variables at program start. *)
Definition initial (io0 : ImGuiIO) (style0 : ImGuiStyle) : State :=
  {| s_width := f_1280_0; s_height := f_720_0;
     s_mousePos := ImVec2.mk f_0_0 f_0_0;
     newFrame_statics := None; GetIO := io0; GetStyle := style0;
     sdk_log := [] |}.

(** *** handleAppletHook *)

(** [mode] is what [appletGetOperationMode()] returns when it is called. *)
Definition handleAppletHook (type : AppletHookType) (mode : AppletOperationMode)
    (s : State) : State :=
  if negb (AppletHookType_eqb type AppletHookType_OnOperationMode) then s
  else
    match mode with
    | AppletOperationMode_Docked =>
        let s := sdk_call (Call_printf ("Switching to 1080p mode" ++ newline)) s in
        let s := set_size f_1920_0 f_1080_0 s in
        let s := set_style (ScaleAllSizes (F32.div f_2_6 f_1_9) (GetStyle s)) s in
        set_io (io_set_FontGlobalScale f_1_6 (GetIO s)) s
    | _ (* default: and AppletOperationMode_Handheld *) =>
        let s := sdk_call (Call_printf ("Switching to 720p mode" ++ newline)) s in
        let s := set_size f_1280_0 f_720_0 s in
        let s := set_style (ScaleAllSizes (F32.div f_1_9 f_2_6) (GetStyle s)) s in
        set_io (io_set_FontGlobalScale f_0_9 (GetIO s)) s
    end.

(** *** updateTouch *)

(** The function works on [io_], a reference to the I/O structure, and on
    the file-scope [s_mousePos].  [touchCount] is the result of
    [hidTouchCount()], [pos] what [hidTouchRead(&pos, 0)] stores. *)
Definition updateTouch (touchCount : N) (pos : touchPosition) (s : State) : State :=
  if (touchCount <? 1)%N then s
  else
    let s := set_mousePos
               (ImVec2.mk (F32.of_Z (Z.of_N (px pos))) (F32.of_Z (Z.of_N (py pos)))) s in
    set_io (io_set_MouseDown (<[0%nat := true]> (MouseDown (GetIO s))) (GetIO s)) s.

(** *** imgui::nx::init *)

Record InitEnv : Type := mk_InitEnv {
  (* plGetSharedFontByType(&standard, PlSharedFontType_Standard) *)
  rc_standard : Result;
  standard : PlFontData;
  (* plGetSharedFontByType(&extended, PlSharedFontType_NintendoExt) *)
  rc_extended : Result;
  extended : PlFontData;
  (* appletGetOperationMode() *)
  init_mode : AppletOperationMode
}.

Definition extended_range : list Z := [0xe000; 0xe152].

Definition init_fonts (env : InitEnv) (fonts : ImFontAtlas) : ImFontAtlas :=
  if R_SUCCEEDED (rc_standard env) && R_SUCCEEDED (rc_extended env) then
    let font_cfg := ImFontConfig_ctor in
    let font_cfg := cfg_set_FontDataOwnedByAtlas false font_cfg in
    let fonts := AddFontFromMemoryTTF (address (standard env))
                   (u32_to_int (size (standard env))) f_20_0 font_cfg
                   (GetGlyphRangesDefault fonts) fonts in
    let font_cfg := cfg_set_MergeMode true font_cfg in
    let fonts := AddFontFromMemoryTTF (address (extended env))
                   (u32_to_int (size (extended env))) f_20_0 font_cfg
                   extended_range fonts in
    let fonts := GetTexDataAsAlpha8 fonts in
    let fonts := atlas_set_Flags
                   (Z.lor (Flags fonts) ImFontAtlasFlags_NoPowerOfTwoHeight) fonts in
    Build fonts
  else fonts.

Definition init (env : InitEnv) (s : State) : bool * State :=
  let s := set_io (io_set_Fonts (init_fonts env (Fonts (GetIO s))) (GetIO s)) s in
  let s := set_style (style_set_WindowRounding f_0_0 (GetStyle s)) s in
  let mode := init_mode env in
  let s :=
    if AppletOperationMode_eqb mode AppletOperationMode_Handheld then
      let s := set_size f_1280_0 f_720_0 s in
      let s := set_style (ScaleAllSizes f_1_9 (GetStyle s)) s in
      set_io (io_set_FontGlobalScale f_0_9 (GetIO s)) s
    else
      let s := set_size f_1920_0 f_1080_0 s in
      let s := set_style (ScaleAllSizes f_2_6 (GetStyle s)) s in
      set_io (io_set_FontGlobalScale f_1_6 (GetIO s)) s in
  let s := sdk_call Call_appletHook s in
  let s := set_io (io_set_IniFilename None (GetIO s)) s in
  let s := set_io (io_set_ConfigFlags
                     (Z.lor (ConfigFlags (GetIO s)) ImGuiConfigFlags_IsTouchScreen)
                     (GetIO s)) s in
  let s := set_io (io_set_MouseDrawCursor false (GetIO s)) s in
  (true, s).

(** *** imgui::nx::newFrame *)

Record FrameEnv : Type := mk_FrameEnv {
  (* steady_clock::now() in the initialiser of the static [start];
     read on the first call only *)
  clock_start : time_point;
  (* steady_clock::now() for [now] *)
  clock_now : time_point;
  (* hidTouchCount() *)
  touchCount : N;
  (* hidTouchRead(&pos, 0) *)
  touch0 : touchPosition
}.

(** The statics as they are once their declarations have been passed. *)
Definition statics_after_decl (env : FrameEnv) (s : State) : time_point * time_point :=
  match newFrame_statics s with
  | Some sp => sp
  | None => (clock_start env, clock_start env)
  end.

Definition newFrame (env : FrameEnv) (s : State) : State :=
  let s := set_io (io_set_DisplaySize (ImVec2.mk (s_width s) (s_height s)) (GetIO s)) s in
  let s := set_io (io_set_DisplayFramebufferScale (ImVec2.mk f_1_0 f_1_0) (GetIO s)) s in
  let '(start, prev) := statics_after_decl env s in
  let now := clock_now env in
  let s := set_io (io_set_DeltaTime (duration_float_count (time_diff now prev))
                     (GetIO s)) s in
  let s := set_statics (Some (start, now)) s in
  let s := updateTouch (touchCount env) (touch0 env) s in
  let s := set_mousePos
             (ImVec2.mk (F32.clamp (ImVec2.x (s_mousePos s)) f_0_0 (s_width s))
                        (ImVec2.y (s_mousePos s))) s in
  let s := set_mousePos
             (ImVec2.mk (ImVec2.x (s_mousePos s))
                        (F32.clamp (ImVec2.y (s_mousePos s)) f_0_0 (s_height s))) s in
  set_io (io_set_MousePos (s_mousePos s) (GetIO s)) s.

(** *** imgui::nx::exit *)

Definition exit (s : State) : State := sdk_call Call_appletUnhook s.

(** *** Runs of the module *)

(** One entry into the file: a call of one of the three public functions,
    or a delivery of an applet event to the registered callback. *)
Inductive Op : Type :=
  | Op_init (env : InitEnv)
  | Op_newFrame (env : FrameEnv)
  | Op_exit
  | Op_hook (type : AppletHookType) (mode : AppletOperationMode).

Definition run_op (s : State) (op : Op) : State :=
  match op with
  | Op_init env => snd (init env s)
  | Op_newFrame env => newFrame env s
  | Op_exit => exit s
  | Op_hook type mode => handleAppletHook type mode s
  end.

Definition run (ops : list Op) (s : State) : State := fold_left run_op ops s.

Definition Op_is_newFrame (op : Op) : bool :=
  match op with Op_newFrame _ => true | _ => false end.

(** The static [prev] at the point where newFrame evaluates [now - prev]. *)
Definition prev_at_call (env : FrameEnv) (s : State) : time_point :=
  snd (statics_after_decl env s).

(** States the program can be in: a run from the start values. *)
Definition reachable (s : State) : Prop :=
  exists io0 style0 ops, s = run ops (initial io0 style0).

(** *** Predicates on states *)

(** The cached display size is one of the two resolutions of the file. *)
Definition display_ok (s : State) : Prop :=
  (s_width s = f_1280_0 /\ s_height s = f_720_0) \/
  (s_width s = f_1920_0 /\ s_height s = f_1080_0).

(** Both coordinates of the cached pointer position are numbers. *)
Definition mouse_ok (s : State) : Prop :=
  F32.is_nan (ImVec2.x (s_mousePos s)) = false /\
  F32.is_nan (ImVec2.y (s_mousePos s)) = false.

(** [p] lies on the display of [s]: [0 <= p.x <= s_width], [0 <= p.y <= s_height]. *)
Definition within_display (p : ImVec2.t) (s : State) : Prop :=
  F32.leb f_0_0 (ImVec2.x p) = true /\ F32.leb (ImVec2.x p) (s_width s) = true /\
  F32.leb f_0_0 (ImVec2.y p) = true /\ F32.leb (ImVec2.y p) (s_height s) = true.

(** [MouseDown] has the five entries of the C++ array. *)
Definition MouseDown_wf (s : State) : Prop :=
  length (MouseDown (GetIO s)) = 5%nat.

(** [io.MouseDown[0]] reads [true]. *)
Definition button0_down (s : State) : Prop :=
  MouseDown (GetIO s) !! 0%nat = Some true.

(** Number of [appletHook] calls in a log. *)
Fixpoint count_hook (log : list SdkCall) : nat :=
  match log with
  | [] => 0%nat
  | c :: log' => ((if SdkCall_is_hook c then 1 else 0) + count_hook log')%nat
  end.

(** Both font loads of [init] succeeded. *)
Definition fonts_loaded (env : InitEnv) : bool :=
  R_SUCCEEDED (rc_standard env) && R_SUCCEEDED (rc_extended env).

End Backend.

(** ** A concrete library for evaluating the model

    The instance keeps what the file asked of Dear ImGui (the scale factors
    in order, the fonts added) rather than what Dear ImGui computes from it;
    result codes follow the SDK convention that 0 is success. *)

Definition sample_types : LibTypes :=
  {| StyleRest := list F32.t;
     AtlasRest := list (Z * Z);
     FontConfigRest := unit;
     IORest := unit;
     Result := Z |}.

Definition sample_api : @LibApi sample_types :=
  @Build_LibApi sample_types
    (* R_SUCCEEDED *) (fun rc : Z => rc =? 0)
    (* ImFontConfig_ctor *) (@mk_ImFontConfig sample_types true false tt)
    (* GetGlyphRangesDefault *) (fun _ => [0x20; 0xff; 0])
    (* AddFontFromMemoryTTF *)
    (fun data sz _ _ _ a =>
       @mk_ImFontAtlas sample_types (Flags a) (atlas_rest a ++ [(data, sz)]))
    (* GetTexDataAsAlpha8 *) (fun a => a)
    (* Build *) (fun a => a)
    (* ScaleAllSizes *)
    (fun f st => @mk_ImGuiStyle sample_types (WindowRounding st) (style_rest st ++ [f]))
    (* ImFontAtlasFlags_NoPowerOfTwoHeight *) 1
    (* ImGuiConfigFlags_IsTouchScreen *) 0x200000.

Definition sample_io : @ImGuiIO sample_types :=
  @mk_ImGuiIO sample_types
    (* ConfigFlags *) 0
    (* DisplaySize *) (ImVec2.mk f_0_0 f_0_0)
    (* DeltaTime *) f_0_0
    (* IniFilename *) (Some "imgui.ini"%string)
    (* Fonts *) (@mk_ImFontAtlas sample_types 0 [])
    (* FontGlobalScale *) f_1_0
    (* DisplayFramebufferScale *) (ImVec2.mk f_1_0 f_1_0)
    (* MouseDrawCursor *) false
    (* MousePos *) (ImVec2.mk f_0_0 f_0_0)
    (* MouseDown *) [false; false; false; false; false]
    (* io_rest *) tt.

Definition sample_style : @ImGuiStyle sample_types :=
  @mk_ImGuiStyle sample_types f_1_0 [].

Definition sample_state : @State sample_types :=
  @initial sample_types sample_io sample_style.

(** Both fonts load, the console is in handheld mode. *)
Definition sample_init_ok : @InitEnv sample_types :=
  @mk_InitEnv sample_types
    (0 : Z) (mk_PlFontData 4096 1000)
    (0 : Z) (mk_PlFontData 8192 2000)
    AppletOperationMode_Handheld.

(** The second font load fails, the console is docked. *)
Definition sample_init_fail : @InitEnv sample_types :=
  @mk_InitEnv sample_types
    (0 : Z) (mk_PlFontData 4096 1000)
    (0xe401 : Z) (mk_PlFontData 0 0)
    AppletOperationMode_Docked.

(** A frame with one finger at (1900, 300), 16 ms after the start reading. *)
Definition sample_frame_touch : FrameEnv :=
  {| clock_start := 5000000000; clock_now := 5016000000;
     touchCount := 1; touch0 := mk_touchPosition 1900 300 |}.

(** A later frame with no finger on the screen. *)
Definition sample_frame_idle : FrameEnv :=
  {| clock_start := 0; clock_now := 5033000000;
     touchCount := 0; touch0 := mk_touchPosition 0 0 |}.

(** An operation mode outside the enumeration, both fonts loaded. *)
Definition sample_init_unknown : @InitEnv sample_types :=
  @mk_InitEnv sample_types
    (0 : Z) (mk_PlFontData 4096 1000)
    (0 : Z) (mk_PlFontData 8192 2000)
    (AppletOperationMode_other 2).

(** Docked console, one frame with a finger at (1900, 300). *)
Definition sample_docked_touched : @State sample_types :=
  @run sample_types sample_api
    [Op_init sample_init_fail; Op_newFrame sample_frame_touch] sample_state.

(** The same, followed by a switch to handheld mode. *)
Definition sample_undocked : @State sample_types :=
  @run sample_types sample_api
    [Op_hook AppletHookType_OnOperationMode AppletOperationMode_Handheld]
    sample_docked_touched.

(** ** Further predicates and counters, for the properties of whole runs *)

(** [a] is a zero, a finite number or an infinity of sign [s]. *)
Definition f32_has_sign (s : bool) (a : F32.t) : bool :=
  match a with
  | S754_zero s' | S754_infinity s' | S754_finite s' _ _ => Bool.eqb s s'
  | S754_nan => false
  end.

Definition SdkCall_is_unhook (c : SdkCall) : bool :=
  match c with Call_appletUnhook => true | _ => false end.

Definition SdkCall_is_printf (c : SdkCall) : bool :=
  match c with Call_printf _ => true | _ => false end.

(** Number of calls in a log that satisfy [p]. *)
Fixpoint count_calls (p : SdkCall -> bool) (log : list SdkCall) : nat :=
  match log with
  | [] => 0%nat
  | c :: log' => ((if p c then 1 else 0) + count_calls p log')%nat
  end.

Section Backend_runs.
Context {types : LibTypes} {api : LibApi}.

(** The display size and the font scale belong to the same mode. *)
Definition settings_ok (s : State) : Prop :=
  (s_width s = f_1280_0 /\ s_height s = f_720_0 /\
   FontGlobalScale (GetIO s) = f_0_9) \/
  (s_width s = f_1920_0 /\ s_height s = f_1080_0 /\
   FontGlobalScale (GetIO s) = f_1_6).

Definition Op_is_init (op : Op) : bool :=
  match op with Op_init _ => true | _ => false end.

Definition Op_is_exit (op : Op) : bool :=
  match op with Op_exit => true | _ => false end.

(** A delivery of [AppletHookType_OnOperationMode] to the callback. *)
Definition Op_is_mode_event (op : Op) : bool :=
  match op with
  | Op_hook type _ => AppletHookType_eqb type AppletHookType_OnOperationMode
  | _ => false
  end.

(** Number of operations in a run that satisfy [p]. *)
Fixpoint count_ops (p : Op -> bool) (ops : list Op) : nat :=
  match ops with
  | [] => 0%nat
  | op :: ops' => ((if p op then 1 else 0) + count_ops p ops')%nat
  end.

(** The factor the callback passes to [ScaleAllSizes] for [mode]. *)
Definition hook_scale_factor (mode : AppletOperationMode) : F32.t :=
  match mode with
  | AppletOperationMode_Docked => F32.div f_2_6 f_1_9
  | _ => F32.div f_1_9 f_2_6
  end.

End Backend_runs.

(** A frame with one finger at (640, 360), on the panel. *)
Definition sample_frame_centre : FrameEnv :=
  {| clock_start := 0; clock_now := 5050000000;
     touchCount := 1; touch0 := mk_touchPosition 640 360 |}.

(** * Properties *)

(** ** Binary32 facts *)

(** The literals, as sign, 24-bit mantissa and exponent. *)
Lemma literal_values :
  f_0_0 = S754_zero false /\
  f_720_0 = S754_finite false 11796480 (-14) /\
  f_1080_0 = S754_finite false 8847360 (-13) /\
  f_1280_0 = S754_finite false 10485760 (-13) /\
  f_1920_0 = S754_finite false 15728640 (-13) /\
  f_0_9 = S754_finite false 15099494 (-24) /\
  f_1_6 = S754_finite false 13421773 (-23).
Proof. repeat split; vm_compute; reflexivity. Qed.

Section Rounding_facts.
Variables prec emax : Z.

Lemma shr_1_nonneg mrs : 0 <= shr_m mrs -> 0 <= shr_m (shr_1 mrs).
Proof.
  destruct mrs as [m r s]; simpl.
  destruct m as [|p|p]; [ | destruct p | ]; simpl; lia.
Qed.

Lemma iter_pos_shr_1_nonneg p : forall mrs,
  0 <= shr_m mrs -> 0 <= shr_m (SpecFloat.iter_pos shr_1 p mrs).
Proof.
  induction p as [p IH|p IH|]; intros mrs Hm; simpl.
  - apply IH, IH, shr_1_nonneg, Hm.
  - apply IH, IH, Hm.
  - apply shr_1_nonneg, Hm.
Qed.

Lemma shr_nonneg mrs e n : 0 <= shr_m mrs -> 0 <= shr_m (fst (shr mrs e n)).
Proof.
  intros Hm. unfold shr. destruct n; simpl; auto using iter_pos_shr_1_nonneg.
Qed.

Lemma shr_fexp_nonneg m e l :
  0 <= m -> 0 <= shr_m (fst (shr_fexp prec emax m e l)).
Proof.
  intros Hm. unfold shr_fexp. apply shr_nonneg.
  destruct l as [|[]]; simpl; exact Hm.
Qed.

Lemma round_nearest_even_nonneg m l : 0 <= m -> 0 <= round_nearest_even m l.
Proof.
  intros Hm. unfold round_nearest_even.
  destruct l as [|[]]; try destruct (Z.even m); lia.
Qed.

(** Rounding a non-negative mantissa gives a zero, a finite number or an
    infinity. *)
Lemma binary_round_aux_not_nan sx mx ex lx :
  0 <= mx -> F32.is_nan (binary_round_aux prec emax sx mx ex lx) = false.
Proof.
  intros Hm. unfold binary_round_aux.
  pose proof (shr_fexp_nonneg mx ex lx Hm) as H1.
  destruct (shr_fexp prec emax mx ex lx) as [mrs' e']. simpl in H1.
  pose proof (shr_fexp_nonneg _ e' loc_Exact
                (round_nearest_even_nonneg _ (loc_of_shr_record mrs') H1)) as H2.
  destruct (shr_fexp prec emax _ e' loc_Exact) as [mrs'' e'']. simpl in H2.
  destruct (shr_m mrs'') as [|m|m]; simpl; try reflexivity.
  - destruct (e'' <=? emax - prec); reflexivity.
  - lia.
Qed.

Lemma binary_normalize_not_nan m e szero :
  F32.is_nan (binary_normalize prec emax m e szero) = false.
Proof.
  destruct m as [|p|p]; simpl; try reflexivity;
    unfold binary_round;
    destruct (shl_align _ _ _) as [mz ez];
    apply binary_round_aux_not_nan; lia.
Qed.

End Rounding_facts.

(** An integer converts to a number, never to a NaN. *)
Lemma of_Z_not_nan z : F32.is_nan (F32.of_Z z) = false.
Proof. apply binary_normalize_not_nan. Qed.

Lemma SFcompare_antisym a b :
  SFcompare b a = option_map CompOpp (SFcompare a b).
Proof.
  destruct a as [sa|sa| |sa ma ea], b as [sb|sb| |sb mb eb];
    try destruct sa; try destruct sb; simpl; try reflexivity.
  - rewrite (Z.compare_antisym ea eb).
    destruct (ea ?= eb) eqn:E; simpl; try reflexivity.
    rewrite Pos.compare_cont_antisym, CompOpp_involutive. reflexivity.
  - rewrite (Z.compare_antisym ea eb).
    destruct (ea ?= eb) eqn:E; simpl; try reflexivity.
    rewrite Pos.compare_cont_antisym. reflexivity.
Qed.

Lemma SFcompare_not_nan a b :
  F32.is_nan a = false -> F32.is_nan b = false -> exists c, SFcompare a b = Some c.
Proof.
  destruct a, b; simpl; intros; try discriminate; eauto.
Qed.

Lemma SFcompare_refl a : F32.is_nan a = false -> SFcompare a a = Some Eq.
Proof.
  destruct a as [s|s| |s m e]; simpl; intros; try discriminate; try reflexivity.
  - destruct s; reflexivity.
  - rewrite Z.compare_refl.
    change (Pos.compare_cont Eq m m) with (Pos.compare m m).
    rewrite Pos.compare_refl. destruct s; reflexivity.
Qed.

Lemma leb_refl a : F32.is_nan a = false -> F32.leb a a = true.
Proof. intros Ha. unfold F32.leb, SFleb. rewrite SFcompare_refl; auto. Qed.

Lemma leb_not_nan a b :
  F32.leb a b = true -> F32.is_nan a = false /\ F32.is_nan b = false.
Proof.
  unfold F32.leb, SFleb. destruct a, b; simpl; auto; discriminate.
Qed.

Lemma not_ltb_leb a b :
  F32.is_nan a = false -> F32.is_nan b = false ->
  F32.ltb a b = false -> F32.leb b a = true.
Proof.
  intros Ha Hb. unfold F32.ltb, F32.leb, SFltb, SFleb.
  rewrite (SFcompare_antisym a b).
  destruct (SFcompare_not_nan a b Ha Hb) as [c ->]. simpl.
  destruct c; simpl; congruence.
Qed.

Lemma clamp_not_nan v lo hi :
  F32.is_nan v = false -> F32.is_nan lo = false -> F32.is_nan hi = false ->
  F32.is_nan (F32.clamp v lo hi) = false.
Proof.
  intros. unfold F32.clamp.
  destruct (F32.ltb v lo); auto. destruct (F32.ltb hi v); auto.
Qed.

(** [std::clamp] of a number between ordered bounds lies between them. *)
Lemma clamp_bounds v lo hi :
  F32.is_nan v = false -> F32.leb lo hi = true ->
  F32.leb lo (F32.clamp v lo hi) = true /\ F32.leb (F32.clamp v lo hi) hi = true.
Proof.
  intros Hv Hle. destruct (leb_not_nan _ _ Hle) as [Hlo Hhi].
  unfold F32.clamp.
  destruct (F32.ltb v lo) eqn:E1; [ split; auto using leb_refl | ].
  destruct (F32.ltb hi v) eqn:E2; [ split; auto using leb_refl | ].
  split; apply not_ltb_leb; auto.
Qed.

(** A NaN passes through [std::clamp]: the bound needs a number. *)
Lemma clamp_nan lo hi : F32.clamp S754_nan lo hi = S754_nan.
Proof. unfold F32.clamp, F32.ltb, SFltb. destruct lo, hi; reflexivity. Qed.

Lemma wrap_s64_id z : in_s64 z -> wrap_s64 z = z.
Proof.
  unfold in_s64, wrap_s64. intros Hz.
  rewrite Z.mod_small; lia.
Qed.

(** ** The applet hook callback *)

Section Hook_facts.
Context {types : LibTypes} {api : LibApi}.

Lemma AppletHookType_eqb_eq a b : AppletHookType_eqb a b = true <-> a = b.
Proof.
  destruct a as [|i], b as [|j]; simpl; split; intros E;
    try reflexivity; try discriminate.
  - apply Nat.eqb_eq in E. subst. reflexivity.
  - inversion E. apply Nat.eqb_refl.
Qed.

(** The callback touches neither the pointer, nor the statics of newFrame,
    nor [MouseDown]. *)
Lemma handleAppletHook_frame type mode s :
  s_mousePos (handleAppletHook type mode s) = s_mousePos s /\
  newFrame_statics (handleAppletHook type mode s) = newFrame_statics s /\
  MouseDown (GetIO (handleAppletHook type mode s)) = MouseDown (GetIO s).
Proof.
  unfold handleAppletHook.
  destruct (negb _); [ auto | destruct mode; auto ].
Qed.

Lemma handleAppletHook_display_ok type mode s :
  display_ok s -> display_ok (handleAppletHook type mode s).
Proof.
  intros Hs. unfold handleAppletHook.
  destruct (negb _); [ exact Hs | ].
  destruct mode; [ left | right | left ]; split; reflexivity.
Qed.

(** C1. When the callback is invoked with [AppletHookType_OnOperationMode]:
    in handheld mode the cached display size becomes 1280 x 720 and the font
    global scale 0.9; in docked mode they become 1920 x 1080 and 1.6. *)
Theorem handleAppletHook_OnOperationMode (s : State) :
  (let s' := handleAppletHook AppletHookType_OnOperationMode
               AppletOperationMode_Handheld s in
   s_width s' = f_1280_0 /\ s_height s' = f_720_0 /\
   FontGlobalScale (GetIO s') = f_0_9) /\
  (let s' := handleAppletHook AppletHookType_OnOperationMode
               AppletOperationMode_Docked s in
   s_width s' = f_1920_0 /\ s_height s' = f_1080_0 /\
   FontGlobalScale (GetIO s') = f_1_6).
Proof. repeat split. Qed.

(** C8. For an event type other than [AppletHookType_OnOperationMode] the
    callback returns at once: the whole state, and with it the cached display
    size, the style and the font global scale, is the one it was called in. *)
Theorem handleAppletHook_other_type (type : AppletHookType)
    (mode : AppletOperationMode) (s : State) :
  type <> AppletHookType_OnOperationMode ->
  handleAppletHook type mode s = s /\
  s_width (handleAppletHook type mode s) = s_width s /\
  s_height (handleAppletHook type mode s) = s_height s /\
  GetStyle (handleAppletHook type mode s) = GetStyle s /\
  FontGlobalScale (GetIO (handleAppletHook type mode s)) = FontGlobalScale (GetIO s).
Proof.
  intros Hne.
  assert (E : handleAppletHook type mode s = s).
  { unfold handleAppletHook.
    destruct (AppletHookType_eqb type AppletHookType_OnOperationMode) eqn:Eq.
    - apply AppletHookType_eqb_eq in Eq. contradiction.
    - reflexivity. }
  rewrite E. repeat split.
Qed.

End Hook_facts.

(** ** init *)

Section Init_facts.
Context {types : LibTypes} {api : LibApi}.

Lemma AppletOperationMode_eqb_eq a b : AppletOperationMode_eqb a b = true <-> a = b.
Proof.
  destruct a as [| |i], b as [| |j]; simpl; split; intros E;
    try reflexivity; try discriminate.
  - apply Z.eqb_eq in E. subst. reflexivity.
  - inversion E. apply Z.eqb_refl.
Qed.

Lemma init_returns_true env s : fst (init env s) = true.
Proof. reflexivity. Qed.

(** What init leaves alone: the pointer, the statics of newFrame, and
    [MouseDown]. *)
Lemma init_frame env s :
  s_mousePos (snd (init env s)) = s_mousePos s /\
  newFrame_statics (snd (init env s)) = newFrame_statics s /\
  MouseDown (GetIO (snd (init env s))) = MouseDown (GetIO s).
Proof.
  unfold init.
  destruct (AppletOperationMode_eqb _ _); auto.
Qed.

Lemma init_display_ok env s : display_ok (snd (init env s)).
Proof.
  unfold init.
  destruct (AppletOperationMode_eqb _ _); [ left | right ]; split; reflexivity.
Qed.

Lemma init_sdk_log env s :
  sdk_log (snd (init env s)) = sdk_log s ++ [Call_appletHook].
Proof.
  unfold init. destruct (AppletOperationMode_eqb _ _); reflexivity.
Qed.

Lemma init_Fonts env s :
  Fonts (GetIO (snd (init env s))) = init_fonts env (Fonts (GetIO s)).
Proof.
  unfold init. destruct (AppletOperationMode_eqb _ _); reflexivity.
Qed.

Lemma init_mode_state env s :
  let s' := snd (init env s) in
  if AppletOperationMode_eqb (init_mode env) AppletOperationMode_Handheld then
    s_width s' = f_1280_0 /\ s_height s' = f_720_0 /\
    FontGlobalScale (GetIO s') = f_0_9
  else
    s_width s' = f_1920_0 /\ s_height s' = f_1080_0 /\
    FontGlobalScale (GetIO s') = f_1_6.
Proof.
  unfold init. destruct (AppletOperationMode_eqb _ _); repeat split.
Qed.

Lemma count_hook_app l1 l2 :
  count_hook (l1 ++ l2) = (count_hook l1 + count_hook l2)%nat.
Proof.
  induction l1 as [|c l1 IH]; simpl; [ reflexivity | rewrite IH; lia ].
Qed.

End Init_facts.

Section Init_claims.
Context {types : LibTypes} {api : LibApi}.

Lemma init_fonts_failed env fonts :
  fonts_loaded env = false -> init_fonts env fonts = fonts.
Proof. unfold fonts_loaded, init_fonts. intros ->. reflexivity. Qed.

Lemma fonts_loaded_false env :
  R_SUCCEEDED (rc_standard env) = false \/ R_SUCCEEDED (rc_extended env) = false ->
  fonts_loaded env = false.
Proof.
  unfold fonts_loaded. intros [E|E]; rewrite E;
    [ reflexivity | apply andb_false_r ].
Qed.

(** With the font block left out, init depends on the mode only. *)
Lemma init_without_fonts env1 env2 s :
  init_mode env1 = init_mode env2 ->
  set_io (io_set_Fonts (Fonts (GetIO s)) (GetIO (snd (init env1 s)))) (snd (init env1 s)) =
  set_io (io_set_Fonts (Fonts (GetIO s)) (GetIO (snd (init env2 s)))) (snd (init env2 s)).
Proof.
  intros E. unfold init. rewrite E.
  destruct (AppletOperationMode_eqb _ _); reflexivity.
Qed.

Lemma init_failed_state env s :
  fonts_loaded env = false ->
  snd (init env s) =
  set_io (io_set_Fonts (Fonts (GetIO s)) (GetIO (snd (init env s)))) (snd (init env s)).
Proof.
  intros Hf. unfold init. rewrite (init_fonts_failed _ _ Hf).
  destruct (AppletOperationMode_eqb _ _); reflexivity.
Qed.

(** C3. init returns [true] for every outcome of the two font loads.  When
    either load fails the font atlas is the one init was called with, the
    only SDK call made is the hook registration, and the resulting state is
    the one of a run with both fonts loaded, but for the font atlas: there
    is no other handling of the failure. *)
Theorem init_font_failure_tolerated (env : InitEnv) (s : State) :
  fst (init env s) = true /\
  (R_SUCCEEDED (rc_standard env) = false \/ R_SUCCEEDED (rc_extended env) = false ->
   Fonts (GetIO (snd (init env s))) = Fonts (GetIO s) /\
   sdk_log (snd (init env s)) = sdk_log s ++ [Call_appletHook] /\
   forall env_ok : InitEnv,
     init_mode env_ok = init_mode env ->
     snd (init env s) =
     set_io (io_set_Fonts (Fonts (GetIO s)) (GetIO (snd (init env_ok s))))
            (snd (init env_ok s))).
Proof.
  split; [ apply init_returns_true | ].
  intros Hfail. apply fonts_loaded_false in Hfail.
  split; [ | split ].
  - rewrite init_Fonts. apply init_fonts_failed, Hfail.
  - apply init_sdk_log.
  - intros env_ok Hmode.
    rewrite (init_failed_state env s Hfail) at 1.
    apply init_without_fonts. symmetry. exact Hmode.
Qed.

(** C6. init registers the applet hook exactly once, and sets the cached
    display size and the font global scale from the operation mode: 1280 x 720
    and 0.9 in handheld mode, 1920 x 1080 and 1.6 for every other mode. *)
Theorem init_hook_once_and_mode (env : InitEnv) (s : State) :
  sdk_log (snd (init env s)) = sdk_log s ++ [Call_appletHook] /\
  count_hook (sdk_log (snd (init env s))) = S (count_hook (sdk_log s)) /\
  (init_mode env = AppletOperationMode_Handheld ->
   s_width (snd (init env s)) = f_1280_0 /\
   s_height (snd (init env s)) = f_720_0 /\
   FontGlobalScale (GetIO (snd (init env s))) = f_0_9) /\
  (init_mode env <> AppletOperationMode_Handheld ->
   s_width (snd (init env s)) = f_1920_0 /\
   s_height (snd (init env s)) = f_1080_0 /\
   FontGlobalScale (GetIO (snd (init env s))) = f_1_6).
Proof.
  pose proof (init_mode_state env s) as Hm. cbv zeta in Hm.
  split; [ apply init_sdk_log | split; [ | split ] ].
  - rewrite init_sdk_log, count_hook_app. simpl. lia.
  - intros E. rewrite E in Hm. exact Hm.
  - intros Hne.
    destruct (AppletOperationMode_eqb (init_mode env) AppletOperationMode_Handheld) eqn:E.
    + apply AppletOperationMode_eqb_eq in E. contradiction.
    + exact Hm.
Qed.

(** C9. An operation mode that is neither handheld nor docked is resolved
    differently by the two switches: the callback's default branch applies
    the handheld settings (1280 x 720, scale 0.9), the else branch of init the
    docked settings (1920 x 1080, scale 1.6). *)
Theorem unknown_mode_hook_vs_init (mode : AppletOperationMode)
    (env : InitEnv) (s : State) :
  mode <> AppletOperationMode_Handheld ->
  mode <> AppletOperationMode_Docked ->
  init_mode env = mode ->
  (s_width (handleAppletHook AppletHookType_OnOperationMode mode s) = f_1280_0 /\
   s_height (handleAppletHook AppletHookType_OnOperationMode mode s) = f_720_0 /\
   FontGlobalScale (GetIO (handleAppletHook AppletHookType_OnOperationMode mode s))
     = f_0_9) /\
  (s_width (snd (init env s)) = f_1920_0 /\
   s_height (snd (init env s)) = f_1080_0 /\
   FontGlobalScale (GetIO (snd (init env s))) = f_1_6).
Proof.
  intros Hh Hd Hmode. split.
  - destruct mode; try contradiction. repeat split.
  - pose proof (init_mode_state env s) as Hm. cbv zeta in Hm.
    destruct (AppletOperationMode_eqb (init_mode env) AppletOperationMode_Handheld) eqn:E.
    + apply AppletOperationMode_eqb_eq in E. congruence.
    + exact Hm.
Qed.

(** The two settings differ, so the two resolutions really disagree. *)
Lemma handheld_docked_settings_differ :
  f_1280_0 <> f_1920_0 /\ f_720_0 <> f_1080_0 /\ f_0_9 <> f_1_6.
Proof. repeat split; vm_compute; discriminate. Qed.

End Init_claims.

(** ** exit *)

Section Exit_claims.
Context {types : LibTypes} {api : LibApi}.

(** C7. exit unregisters the applet hook and changes nothing else: the
    cached display size, the cached pointer position and the whole I/O
    structure are the ones it was called with (and so are the style and the
    statics of newFrame). *)
Theorem exit_only_unhooks (s : State) :
  sdk_log (exit s) = sdk_log s ++ [Call_appletUnhook] /\
  s_width (exit s) = s_width s /\
  s_height (exit s) = s_height s /\
  s_mousePos (exit s) = s_mousePos s /\
  GetIO (exit s) = GetIO s /\
  GetStyle (exit s) = GetStyle s /\
  newFrame_statics (exit s) = newFrame_statics s.
Proof. repeat split. Qed.

End Exit_claims.

(** ** updateTouch and newFrame *)

Section Frame_facts.
Context {types : LibTypes} {api : LibApi}.

Lemma insert0_lookup (l : list bool) :
  (0 < length l)%nat -> <[0%nat := true]> l !! 0%nat = Some true.
Proof. intros Hl. apply list_lookup_insert_eq. exact Hl. Qed.

Lemma updateTouch_none tc pos s : (tc < 1)%N -> updateTouch tc pos s = s.
Proof.
  intros Hlt. unfold updateTouch.
  apply N.ltb_lt in Hlt. rewrite Hlt. reflexivity.
Qed.

Lemma updateTouch_some tc pos s :
  (1 <= tc)%N ->
  updateTouch tc pos s =
  set_io (io_set_MouseDown (<[0%nat := true]> (MouseDown (GetIO s))) (GetIO s))
    (set_mousePos
       (ImVec2.mk (F32.of_Z (Z.of_N (px pos))) (F32.of_Z (Z.of_N (py pos)))) s).
Proof.
  intros Hle. unfold updateTouch.
  destruct (tc <? 1)%N eqn:E; [ apply N.ltb_lt in E; lia | reflexivity ].
Qed.

Lemma updateTouch_size tc pos s :
  s_width (updateTouch tc pos s) = s_width s /\
  s_height (updateTouch tc pos s) = s_height s.
Proof. unfold updateTouch. destruct (tc <? 1)%N; split; reflexivity. Qed.

Lemma updateTouch_mouse_ok tc pos s :
  mouse_ok s -> mouse_ok (updateTouch tc pos s).
Proof.
  intros Hs. unfold updateTouch. destruct (tc <? 1)%N; [ exact Hs | ].
  split; apply of_Z_not_nan.
Qed.

Lemma updateTouch_MouseDown_length tc pos s :
  length (MouseDown (GetIO (updateTouch tc pos s))) = length (MouseDown (GetIO s)).
Proof.
  unfold updateTouch. destruct (tc <? 1)%N; [ reflexivity | ].
  simpl. apply length_insert.
Qed.

Lemma updateTouch_button0 tc pos s :
  button0_down s -> button0_down (updateTouch tc pos s).
Proof.
  unfold button0_down, updateTouch. intros Hs.
  destruct (tc <? 1)%N; [ exact Hs | ]. simpl.
  apply insert0_lookup. apply lookup_lt_Some in Hs. exact Hs.
Qed.

(** newFrame, field by field. *)

Lemma newFrame_size env s :
  s_width (newFrame env s) = s_width s /\ s_height (newFrame env s) = s_height s.
Proof.
  unfold newFrame, updateTouch.
  destruct (statics_after_decl _ _) as [start prev].
  destruct (touchCount env <? 1)%N; split; reflexivity.
Qed.

Lemma newFrame_s_mousePos env s :
  s_mousePos (newFrame env s) =
  let p := s_mousePos (updateTouch (touchCount env) (touch0 env) s) in
  ImVec2.mk (F32.clamp (ImVec2.x p) f_0_0 (s_width s))
            (F32.clamp (ImVec2.y p) f_0_0 (s_height s)).
Proof.
  unfold newFrame, updateTouch.
  destruct (statics_after_decl _ _) as [start prev].
  destruct (touchCount env <? 1)%N; reflexivity.
Qed.

Lemma newFrame_MousePos env s :
  MousePos (GetIO (newFrame env s)) = s_mousePos (newFrame env s).
Proof.
  unfold newFrame, updateTouch.
  destruct (statics_after_decl _ _) as [start prev].
  destruct (touchCount env <? 1)%N; reflexivity.
Qed.

Lemma newFrame_MouseDown env s :
  MouseDown (GetIO (newFrame env s)) =
  MouseDown (GetIO (updateTouch (touchCount env) (touch0 env) s)).
Proof.
  unfold newFrame, updateTouch.
  destruct (statics_after_decl _ _) as [start prev].
  destruct (touchCount env <? 1)%N; reflexivity.
Qed.

Lemma newFrame_DeltaTime_eq env s :
  DeltaTime (GetIO (newFrame env s)) =
  duration_float_count (time_diff (clock_now env) (snd (statics_after_decl env s))).
Proof.
  unfold newFrame, statics_after_decl, updateTouch. cbn [newFrame_statics set_io].
  destruct (newFrame_statics s) as [[start prev]|];
    destruct (touchCount env <? 1)%N; reflexivity.
Qed.

Lemma newFrame_statics_eq env s :
  newFrame_statics (newFrame env s) =
  Some (fst (statics_after_decl env s), clock_now env).
Proof.
  unfold newFrame, statics_after_decl, updateTouch. cbn [newFrame_statics set_io].
  destruct (newFrame_statics s) as [[start prev]|];
    destruct (touchCount env <? 1)%N; reflexivity.
Qed.

End Frame_facts.

(** ** Runs and their invariants *)

Section Run_facts.
Context {types : LibTypes} {api : LibApi}.

Lemma display_ok_bounds s :
  display_ok s ->
  F32.leb f_0_0 (s_width s) = true /\ F32.leb f_0_0 (s_height s) = true.
Proof.
  intros [[-> ->]|[-> ->]]; split; vm_compute; reflexivity.
Qed.

Lemma newFrame_display_ok env s : display_ok s -> display_ok (newFrame env s).
Proof.
  unfold display_ok. destruct (newFrame_size env s) as [-> ->]. auto.
Qed.

Lemma newFrame_mouse_ok env s :
  display_ok s -> mouse_ok s -> mouse_ok (newFrame env s).
Proof.
  intros Hd Hm.
  destruct (display_ok_bounds s Hd) as [Hw Hh].
  apply leb_not_nan in Hw, Hh.
  destruct (updateTouch_mouse_ok (touchCount env) (touch0 env) s Hm) as [Hx Hy].
  unfold mouse_ok. rewrite newFrame_s_mousePos. cbv zeta. simpl.
  split; apply clamp_not_nan; tauto.
Qed.

(** Whatever the pointer and the display size are numbers for, the position
    newFrame leaves lies on the display. *)
Lemma newFrame_within_display env s :
  display_ok s -> mouse_ok s ->
  within_display (s_mousePos (newFrame env s)) (newFrame env s).
Proof.
  intros Hd Hm.
  destruct (display_ok_bounds s Hd) as [Hw Hh].
  destruct (updateTouch_mouse_ok (touchCount env) (touch0 env) s Hm) as [Hx Hy].
  unfold within_display.
  destruct (newFrame_size env s) as [-> ->].
  rewrite newFrame_s_mousePos. cbv zeta. simpl.
  destruct (clamp_bounds _ _ _ Hx Hw) as [? ?].
  destruct (clamp_bounds _ _ _ Hy Hh) as [? ?].
  tauto.
Qed.

Lemma run_op_inv op s :
  display_ok s /\ mouse_ok s -> display_ok (run_op s op) /\ mouse_ok (run_op s op).
Proof.
  intros [Hd Hm]. destruct op as [env|env| |type mode]; cbn [run_op].
  - split; [ apply init_display_ok | ].
    unfold mouse_ok. destruct (init_frame env s) as [-> _]. exact Hm.
  - split; [ apply newFrame_display_ok, Hd | apply newFrame_mouse_ok; assumption ].
  - split; assumption.
  - split; [ apply handleAppletHook_display_ok, Hd | ].
    unfold mouse_ok. destruct (handleAppletHook_frame type mode s) as [-> _]. exact Hm.
Qed.

Lemma run_inv ops : forall s,
  display_ok s /\ mouse_ok s -> display_ok (run ops s) /\ mouse_ok (run ops s).
Proof.
  induction ops as [|op ops IH]; intros s Hs; simpl.
  - exact Hs.
  - apply IH, run_op_inv, Hs.
Qed.

Lemma initial_inv io0 style0 :
  display_ok (initial io0 style0) /\ mouse_ok (initial io0 style0).
Proof.
  split; [ left; split; reflexivity | split; reflexivity ].
Qed.

Lemma reachable_inv s : reachable s -> display_ok s /\ mouse_ok s.
Proof.
  intros (io0 & style0 & ops & ->). apply run_inv, initial_inv.
Qed.

Lemma run_op_statics op s :
  Op_is_newFrame op = false -> newFrame_statics (run_op s op) = newFrame_statics s.
Proof.
  destruct op as [env|env| |type mode]; cbn [run_op Op_is_newFrame]; intros E;
    try discriminate.
  - apply init_frame.
  - reflexivity.
  - apply handleAppletHook_frame.
Qed.

Lemma run_statics ops : forall s,
  forallb (fun op => negb (Op_is_newFrame op)) ops = true ->
  newFrame_statics (run ops s) = newFrame_statics s.
Proof.
  induction ops as [|op ops IH]; intros s Hall; simpl in *.
  - reflexivity.
  - apply andb_true_iff in Hall as [Hop Hall].
    rewrite (IH _ Hall). apply run_op_statics.
    destruct (Op_is_newFrame op); [ discriminate | reflexivity ].
Qed.

Lemma run_op_button0 op s : button0_down s -> button0_down (run_op s op).
Proof.
  unfold button0_down. intros Hs. destruct op as [env|env| |type mode]; cbn [run_op].
  - destruct (init_frame env s) as (_ & _ & ->). exact Hs.
  - rewrite newFrame_MouseDown. apply updateTouch_button0, Hs.
  - exact Hs.
  - destruct (handleAppletHook_frame type mode s) as (_ & _ & ->). exact Hs.
Qed.

Lemma run_button0 ops : forall s, button0_down s -> button0_down (run ops s).
Proof.
  induction ops as [|op ops IH]; intros s Hs; simpl.
  - exact Hs.
  - apply IH, run_op_button0, Hs.
Qed.

Lemma run_op_MouseDown_wf op s : MouseDown_wf s -> MouseDown_wf (run_op s op).
Proof.
  unfold MouseDown_wf. intros Hs. destruct op as [env|env| |type mode]; cbn [run_op].
  - destruct (init_frame env s) as (_ & _ & ->). exact Hs.
  - rewrite newFrame_MouseDown, updateTouch_MouseDown_length. exact Hs.
  - exact Hs.
  - destruct (handleAppletHook_frame type mode s) as (_ & _ & ->). exact Hs.
Qed.

Lemma newFrame_touch_button0 env s :
  MouseDown_wf s -> (1 <= touchCount env)%N -> button0_down (newFrame env s).
Proof.
  unfold MouseDown_wf, button0_down. intros Hwf Hle.
  rewrite newFrame_MouseDown, (updateTouch_some _ _ _ Hle). simpl.
  apply insert0_lookup. lia.
Qed.

(** Integers up to 4096, which covers every coordinate of the touch screen,
    convert to [float] without rounding. *)
Lemma of_Z_exact_small (n : N) :
  (n <= 4096)%N -> F32.to_Z (F32.of_Z (Z.of_N n)) = Some (Z.of_N n).
Proof.
  intros Hn.
  assert (Hall : forallb
            (fun k => match F32.to_Z (F32.of_Z (Z.of_nat k)) with
                      | Some z => z =? Z.of_nat k
                      | None => false
                      end) (seq 0 4097) = true) by (vm_compute; reflexivity).
  rewrite forallb_forall in Hall.
  specialize (Hall (N.to_nat n)).
  rewrite in_seq in Hall.
  replace (Z.of_nat (N.to_nat n)) with (Z.of_N n) in Hall by lia.
  destruct (F32.to_Z (F32.of_Z (Z.of_N n))) as [z|].
  - f_equal. apply Z.eqb_eq. apply Hall. lia.
  - discriminate Hall. lia.
Qed.

End Run_facts.

(** ** Claims on updateTouch and newFrame *)

Section Frame_claims.
Context {types : LibTypes} {api : LibApi}.

(** C2. After every call of newFrame, in any state the program can reach,
    the pointer position written to the I/O structure is the cached one and
    lies on the display: [0 <= x <= s_width] and [0 <= y <= s_height] for the
    cached display size at that point. *)
Theorem newFrame_pointer_clamped (env : FrameEnv) (s : State) :
  reachable s ->
  MousePos (GetIO (newFrame env s)) = s_mousePos (newFrame env s) /\
  within_display (MousePos (GetIO (newFrame env s))) (newFrame env s).
Proof.
  intros Hr. apply reachable_inv in Hr as [Hd Hm].
  split; [ apply newFrame_MousePos | ].
  rewrite newFrame_MousePos. apply newFrame_within_display; assumption.
Qed.


(** C5. When the tick difference fits the 64-bit count, newFrame sets
    [DeltaTime] to the time between the reading it takes and the stored
    previous time point, in seconds: the binary32 quotient of that number of
    nanosecond ticks, converted to binary32, by the float 1e9
    (15625000 * 2^6).  That time point is the start reading on the first
    call, and the reading of the previous newFrame call afterwards, whatever
    else ran in between.  The reading becomes the stored previous time
    point. *)
Theorem newFrame_forwards_elapsed_time (env : FrameEnv) (s : State) :
  in_s64 (clock_now env - prev_at_call env s) ->
  DeltaTime (GetIO (newFrame env s)) =
    SFdiv 24 128
      (binary_normalize 24 128 (clock_now env - prev_at_call env s) 0 false)
      (S754_finite false 15625000 6) /\
  (newFrame_statics s = None -> prev_at_call env s = clock_start env) /\
  (forall (env0 : FrameEnv) (s0 : State) (ops : list Op),
     forallb (fun op => negb (Op_is_newFrame op)) ops = true ->
     s = run ops (newFrame env0 s0) ->
     prev_at_call env s = clock_now env0) /\
  (forall env' : FrameEnv, prev_at_call env' (newFrame env s) = clock_now env).
Proof.
  intros Hfit. split; [ | split; [ | split ] ].
  - rewrite newFrame_DeltaTime_eq. unfold time_diff.
    fold (prev_at_call env s). rewrite (wrap_s64_id _ Hfit). reflexivity.
  - unfold prev_at_call, statics_after_decl. intros ->. reflexivity.
  - intros env0 s0 ops Hops ->.
    unfold prev_at_call, statics_after_decl.
    rewrite (run_statics _ _ Hops), newFrame_statics_eq. reflexivity.
  - intros env'. unfold prev_at_call at 1. unfold statics_after_decl at 1.
    rewrite newFrame_statics_eq. reflexivity.
Qed.

(** C10. No entry into the file resets [MouseDown[0]]: every operation keeps
    it [true] once it is.  So after a frame that saw a touch the button reads
    pressed at the end of that frame and after every later run of init,
    newFrame (with or without a touch), exit and callback deliveries. *)
Theorem button0_never_released (env : FrameEnv) (s : State) :
  MouseDown_wf s ->
  (1 <= touchCount env)%N ->
  (forall (op : Op) (s' : State), button0_down s' -> button0_down (run_op s' op)) /\
  (forall ops : list Op, button0_down (run ops (newFrame env s))) /\
  (forall (ops : list Op) (env' : FrameEnv),
     touchCount env' = 0%N ->
     button0_down (newFrame env' (run ops (newFrame env s)))).
Proof.
  intros Hwf Hle.
  pose proof (newFrame_touch_button0 env s Hwf Hle) as H0.
  split; [ | split ].
  - intros op s'. apply run_op_button0.
  - intros ops. apply run_button0, H0.
  - intros ops env' _.
    apply (run_op_button0 (Op_newFrame env')), run_button0, H0.
Qed.

End Frame_claims.

(** ** The model at concrete inputs *)

Section Samples.
#[local] Existing Instance sample_types.
#[local] Existing Instance sample_api.

Lemma sample_docked_touched_reachable : reachable sample_docked_touched.
Proof.
  exists sample_io, sample_style,
    [Op_init sample_init_fail; Op_newFrame sample_frame_touch].
  reflexivity.
Defined.

(** Docked, finger at (1900, 300): the pointer is reported there. *)
Example docked_touch_position :
  MousePos (GetIO sample_docked_touched) =
    ImVec2.mk (F32.of_Z 1900) (F32.of_Z 300) /\
  s_width sample_docked_touched = f_1920_0 /\
  DeltaTime (GetIO sample_docked_touched) = S754_finite false 8589935 (-29).
Proof. repeat split; vm_compute; reflexivity. Qed.

(** A mode change does not clamp: between the switch to handheld mode and
    the next frame the cached position 1900 exceeds the cached width 1280.
    The next newFrame brings it back to 1280. *)
Example undocked_pointer_until_next_frame :
  F32.leb (ImVec2.x (s_mousePos sample_undocked)) (s_width sample_undocked) = false /\
  MousePos (GetIO (newFrame sample_frame_idle sample_undocked)) =
    ImVec2.mk f_1280_0 (F32.of_Z 300).
Proof. split; vm_compute; reflexivity. Qed.

Lemma newFrame_pointer_clamped_witness :
  reachable sample_docked_touched /\
  within_display (MousePos (GetIO (newFrame sample_frame_idle sample_docked_touched)))
    (newFrame sample_frame_idle sample_docked_touched).
Proof.
  split; [ exact sample_docked_touched_reachable | ].
  exact (proj2 (newFrame_pointer_clamped sample_frame_idle sample_docked_touched
                  sample_docked_touched_reachable)).
Defined.

Lemma init_font_failure_tolerated_witness :
  R_SUCCEEDED (rc_extended sample_init_fail) = false /\
  fst (init sample_init_fail sample_state) = true /\
  Fonts (GetIO (snd (init sample_init_fail sample_state))) = Fonts (GetIO sample_state).
Proof.
  destruct (init_font_failure_tolerated sample_init_fail sample_state) as [Ht Hf].
  destruct (Hf (or_intror eq_refl)) as [Hfonts _].
  split; [ reflexivity | split; [ exact Ht | exact Hfonts ] ].
Defined.


Lemma newFrame_forwards_elapsed_time_witness :
  in_s64 (clock_now sample_frame_touch - prev_at_call sample_frame_touch sample_state) /\
  (* first call, 16 ms after the start reading: 0.016f *)
  DeltaTime (GetIO (newFrame sample_frame_touch sample_state)) =
    S754_finite false 8589935 (-29) /\
  in_s64 (clock_now sample_frame_idle
          - prev_at_call sample_frame_idle (newFrame sample_frame_touch sample_state)) /\
  (* next call, 17 ms after the reading of the first: 0.017f *)
  DeltaTime (GetIO (newFrame sample_frame_idle
                      (newFrame sample_frame_touch sample_state))) =
    S754_finite false 9126806 (-29).
Proof.
  assert (Hfit : in_s64 (clock_now sample_frame_touch
                         - prev_at_call sample_frame_touch sample_state))
    by (vm_compute; split; [ discriminate | reflexivity ]).
  assert (Hfit' : in_s64 (clock_now sample_frame_idle
                          - prev_at_call sample_frame_idle
                              (newFrame sample_frame_touch sample_state)))
    by (vm_compute; split; [ discriminate | reflexivity ]).
  split; [ exact Hfit | split; [ | split; [ exact Hfit' | ] ] ].
  - exact (proj1 (newFrame_forwards_elapsed_time sample_frame_touch sample_state Hfit)).
  - exact (proj1 (newFrame_forwards_elapsed_time sample_frame_idle
                    (newFrame sample_frame_touch sample_state) Hfit')).
Defined.

Lemma init_hook_once_and_mode_witness :
  (init_mode sample_init_ok = AppletOperationMode_Handheld /\
   s_width (snd (init sample_init_ok sample_state)) = f_1280_0) /\
  (init_mode sample_init_fail <> AppletOperationMode_Handheld /\
   s_width (snd (init sample_init_fail sample_state)) = f_1920_0).
Proof.
  assert (Hne : init_mode sample_init_fail <> AppletOperationMode_Handheld)
    by (intros E; discriminate E).
  destruct (init_hook_once_and_mode sample_init_ok sample_state)
    as (_ & _ & Hhand & _).
  destruct (init_hook_once_and_mode sample_init_fail sample_state)
    as (_ & _ & _ & Hother).
  split; split.
  - reflexivity.
  - exact (proj1 (Hhand eq_refl)).
  - exact Hne.
  - exact (proj1 (Hother Hne)).
Defined.

Lemma handleAppletHook_other_type_witness :
  AppletHookType_other 0 <> AppletHookType_OnOperationMode /\
  handleAppletHook (AppletHookType_other 0) AppletOperationMode_Docked sample_state
    = sample_state.
Proof.
  assert (Hne : AppletHookType_other 0 <> AppletHookType_OnOperationMode)
    by (intros E; discriminate E).
  split; [ exact Hne | ].
  exact (proj1 (handleAppletHook_other_type (AppletHookType_other 0)
                  AppletOperationMode_Docked sample_state Hne)).
Defined.

Lemma unknown_mode_hook_vs_init_witness :
  s_width (handleAppletHook AppletHookType_OnOperationMode
             (AppletOperationMode_other 2) sample_state) = f_1280_0 /\
  s_width (snd (init sample_init_unknown sample_state)) = f_1920_0.
Proof.
  assert (Hh : AppletOperationMode_other 2 <> AppletOperationMode_Handheld)
    by (intros E; discriminate E).
  assert (Hd : AppletOperationMode_other 2 <> AppletOperationMode_Docked)
    by (intros E; discriminate E).
  destruct (unknown_mode_hook_vs_init (AppletOperationMode_other 2)
              sample_init_unknown sample_state Hh Hd eq_refl) as [Hhook Hinit].
  split; [ exact (proj1 Hhook) | exact (proj1 Hinit) ].
Defined.

Lemma button0_never_released_witness :
  MouseDown_wf sample_state /\ (1 <= touchCount sample_frame_touch)%N /\
  button0_down
    (run [Op_hook AppletHookType_OnOperationMode AppletOperationMode_Docked;
          Op_newFrame sample_frame_idle; Op_exit]
       (newFrame sample_frame_touch sample_state)).
Proof.
  assert (Hwf : MouseDown_wf sample_state) by reflexivity.
  assert (Hle : (1 <= touchCount sample_frame_touch)%N) by (simpl; lia).
  destruct (button0_never_released sample_frame_touch sample_state Hwf Hle)
    as (_ & Hrun & _).
  split; [ exact Hwf | split; [ exact Hle | apply Hrun ] ].
Defined.

End Samples.

(** * Further properties of the code *)

(** ** Signs of converted and divided numbers *)

Section Sign_facts.
Variables prec emax : Z.

(** Rounding a non-negative mantissa keeps the sign it is given. *)
Lemma binary_round_aux_sign sx mx ex lx :
  0 <= mx -> f32_has_sign sx (binary_round_aux prec emax sx mx ex lx) = true.
Proof.
  intros Hm. unfold binary_round_aux.
  pose proof (shr_fexp_nonneg prec emax mx ex lx Hm) as H1.
  destruct (shr_fexp prec emax mx ex lx) as [mrs' e']. simpl in H1.
  pose proof (shr_fexp_nonneg prec emax _ e' loc_Exact
                (round_nearest_even_nonneg _ (loc_of_shr_record mrs') H1)) as H2.
  destruct (shr_fexp prec emax _ e' loc_Exact) as [mrs'' e'']. simpl in H2.
  destruct (shr_m mrs'') as [|m|m]; simpl.
  - apply eqb_reflx.
  - destruct (e'' <=? emax - prec); simpl; apply eqb_reflx.
  - lia.
Qed.

Lemma binary_normalize_nonneg m e :
  0 <= m -> f32_has_sign false (binary_normalize prec emax m e false) = true.
Proof.
  intros Hm. destruct m as [|p|p]; simpl; try reflexivity; [ | lia ].
  unfold binary_round. destruct (shl_align _ _ _) as [mz ez].
  apply binary_round_aux_sign. lia.
Qed.

Lemma SFdiv_core_binary_nonneg m1 e1 m2 e2 :
  0 <= fst (fst (SFdiv_core_binary prec emax (Z.pos m1) e1 (Z.pos m2) e2)).
Proof.
  unfold SFdiv_core_binary.
  set (s := e1 - e2 - _).
  set (m' := match s with Z.pos _ => Z.shiftl (Z.pos m1) s | 0 => Z.pos m1
             | Z.neg _ => 0 end).
  assert (Hm' : 0 <= m').
  { subst m'. destruct s; try lia. apply Z.shiftl_nonneg. lia. }
  pose proof (Z.div_pos m' (Z.pos m2) Hm' ltac:(lia)) as Hq.
  unfold Z.div in Hq.
  destruct (Z.div_eucl m' (Z.pos m2)) as [q r]. simpl. exact Hq.
Qed.

(** The quotient of two numbers of sign [+] is a number of sign [+]
    whenever the divisor is finite. *)
Lemma SFdiv_nonneg a mb eb :
  f32_has_sign false a = true ->
  f32_has_sign false (SFdiv prec emax a (S754_finite false mb eb)) = true.
Proof.
  destruct a as [sa|sa| |sa ma ea]; simpl; try discriminate;
    destruct sa; simpl; try discriminate; try reflexivity.
  intros _.
  pose proof (SFdiv_core_binary_nonneg ma ea mb eb) as Hq.
  destruct (SFdiv_core_binary prec emax (Z.pos ma) ea (Z.pos mb) eb) as [[mz ez] lz].
  simpl in Hq. apply binary_round_aux_sign. exact Hq.
Qed.

End Sign_facts.

Lemma of_Z_nonneg z : 0 <= z -> f32_has_sign false (F32.of_Z z) = true.
Proof. apply binary_normalize_nonneg. Qed.

Lemma has_sign_not_nan s a : f32_has_sign s a = true -> F32.is_nan a = false.
Proof. destruct a; simpl; auto; discriminate. Qed.

Lemma nonneg_leb_zero a : f32_has_sign false a = true -> F32.leb f_0_0 a = true.
Proof.
  destruct a as [s|s| |s m e]; simpl; try discriminate;
    destruct s; simpl; try discriminate; reflexivity.
Qed.

Lemma nonneg_not_ltb_zero a : f32_has_sign false a = true -> F32.ltb a f_0_0 = false.
Proof.
  destruct a as [s|s| |s m e]; simpl; try discriminate;
    destruct s; simpl; try discriminate; reflexivity.
Qed.

Lemma duration_float_count_nonneg d :
  0 <= d -> f32_has_sign false (duration_float_count d) = true.
Proof.
  intros Hd. unfold duration_float_count, F32.div.
  change (F32.of_Z 1000000000) with (S754_finite false 15625000 6).
  apply SFdiv_nonneg, of_Z_nonneg, Hd.
Qed.

(** ** std::clamp on values between the bounds *)

Lemma leb_not_ltb a b : F32.leb a b = true -> F32.ltb b a = false.
Proof.
  unfold F32.leb, F32.ltb, SFleb, SFltb.
  rewrite (SFcompare_antisym a b).
  destruct (SFcompare a b) as [[]|]; simpl; congruence.
Qed.

Lemma clamp_id v lo hi :
  F32.leb lo v = true -> F32.leb v hi = true -> F32.clamp v lo hi = v.
Proof.
  intros Hlo Hhi. unfold F32.clamp.
  rewrite (leb_not_ltb _ _ Hlo), (leb_not_ltb _ _ Hhi). reflexivity.
Qed.

(** For a value of sign [+] the lower bound 0 never applies. *)
Lemma clamp_nonneg v hi :
  f32_has_sign false v = true ->
  F32.clamp v f_0_0 hi = if F32.ltb hi v then hi else v.
Proof.
  intros Hv. unfold F32.clamp. rewrite (nonneg_not_ltb_zero _ Hv). reflexivity.
Qed.

(** Coordinates on the touch panel against the two display sizes. *)
Lemma panel_coordinates_fit (n : N) :
  ((n <= 1280)%N ->
   F32.ltb f_1280_0 (F32.of_Z (Z.of_N n)) = false /\
   F32.ltb f_1920_0 (F32.of_Z (Z.of_N n)) = false) /\
  ((n <= 720)%N ->
   F32.ltb f_720_0 (F32.of_Z (Z.of_N n)) = false /\
   F32.ltb f_1080_0 (F32.of_Z (Z.of_N n)) = false).
Proof.
  assert (Hx : forallb (fun k =>
            negb (F32.ltb f_1280_0 (F32.of_Z (Z.of_nat k))) &&
            negb (F32.ltb f_1920_0 (F32.of_Z (Z.of_nat k)))) (seq 0 1281) = true)
    by (vm_compute; reflexivity).
  assert (Hy : forallb (fun k =>
            negb (F32.ltb f_720_0 (F32.of_Z (Z.of_nat k))) &&
            negb (F32.ltb f_1080_0 (F32.of_Z (Z.of_nat k)))) (seq 0 721) = true)
    by (vm_compute; reflexivity).
  rewrite forallb_forall in Hx, Hy.
  split; intros Hn.
  - specialize (Hx (N.to_nat n)). rewrite in_seq in Hx.
    replace (Z.of_nat (N.to_nat n)) with (Z.of_N n) in Hx by lia.
    apply andb_true_iff in Hx as [H1 H2]; [ | lia ].
    apply negb_true_iff in H1, H2. split; assumption.
  - specialize (Hy (N.to_nat n)). rewrite in_seq in Hy.
    replace (Z.of_nat (N.to_nat n)) with (Z.of_N n) in Hy by lia.
    apply andb_true_iff in Hy as [H1 H2]; [ | lia ].
    apply negb_true_iff in H1, H2. split; assumption.
Qed.

(** ** Frames: what newFrame writes and what it leaves *)

Section Frame_more.
Context {types : LibTypes} {api : LibApi}.

Lemma newFrame_io_untouched env s :
  ConfigFlags (GetIO (newFrame env s)) = ConfigFlags (GetIO s) /\
  IniFilename (GetIO (newFrame env s)) = IniFilename (GetIO s) /\
  Fonts (GetIO (newFrame env s)) = Fonts (GetIO s) /\
  FontGlobalScale (GetIO (newFrame env s)) = FontGlobalScale (GetIO s) /\
  MouseDrawCursor (GetIO (newFrame env s)) = MouseDrawCursor (GetIO s) /\
  io_rest (GetIO (newFrame env s)) = io_rest (GetIO s).
Proof.
  unfold newFrame, updateTouch.
  destruct (statics_after_decl _ _) as [start prev].
  destruct (touchCount env <? 1)%N; repeat split.
Qed.

Lemma newFrame_state_untouched env s :
  GetStyle (newFrame env s) = GetStyle s /\ sdk_log (newFrame env s) = sdk_log s.
Proof.
  unfold newFrame, updateTouch.
  destruct (statics_after_decl _ _) as [start prev].
  destruct (touchCount env <? 1)%N; repeat split.
Qed.

Lemma newFrame_display env s :
  DisplaySize (GetIO (newFrame env s)) = ImVec2.mk (s_width s) (s_height s) /\
  DisplayFramebufferScale (GetIO (newFrame env s)) = ImVec2.mk f_1_0 f_1_0.
Proof.
  unfold newFrame, updateTouch.
  destruct (statics_after_decl _ _) as [start prev].
  destruct (touchCount env <? 1)%N; repeat split.
Qed.

(** X3. newFrame reports the cached display size with a framebuffer scale
    of 1, and leaves the configuration alone: the cached size itself, the
    style, the SDK log, and of the I/O structure the config flags, the ini
    file name, the font atlas, the font global scale, the cursor flag and
    every member the file never names. *)
Theorem newFrame_reports_display_and_keeps_config (env : FrameEnv) (s : State) :
  DisplaySize (GetIO (newFrame env s)) = ImVec2.mk (s_width s) (s_height s) /\
  DisplayFramebufferScale (GetIO (newFrame env s)) = ImVec2.mk f_1_0 f_1_0 /\
  s_width (newFrame env s) = s_width s /\
  s_height (newFrame env s) = s_height s /\
  GetStyle (newFrame env s) = GetStyle s /\
  sdk_log (newFrame env s) = sdk_log s /\
  ConfigFlags (GetIO (newFrame env s)) = ConfigFlags (GetIO s) /\
  IniFilename (GetIO (newFrame env s)) = IniFilename (GetIO s) /\
  Fonts (GetIO (newFrame env s)) = Fonts (GetIO s) /\
  FontGlobalScale (GetIO (newFrame env s)) = FontGlobalScale (GetIO s) /\
  MouseDrawCursor (GetIO (newFrame env s)) = MouseDrawCursor (GetIO s) /\
  io_rest (GetIO (newFrame env s)) = io_rest (GetIO s).
Proof.
  destruct (newFrame_display env s) as [Hd Hf].
  destruct (newFrame_size env s) as [Hw Hh].
  destruct (newFrame_state_untouched env s) as [Hst Hlog].
  pose proof (newFrame_io_untouched env s) as Hio.
  repeat (split; [ assumption | ]). exact Hio.
Qed.

Lemma newFrame_touch_s_mousePos env s :
  (1 <= touchCount env)%N ->
  s_mousePos (newFrame env s) =
  ImVec2.mk
    (if F32.ltb (s_width s) (F32.of_Z (Z.of_N (px (touch0 env))))
     then s_width s else F32.of_Z (Z.of_N (px (touch0 env))))
    (if F32.ltb (s_height s) (F32.of_Z (Z.of_N (py (touch0 env))))
     then s_height s else F32.of_Z (Z.of_N (py (touch0 env)))).
Proof.
  intros Hle. rewrite newFrame_s_mousePos, (updateTouch_some _ _ _ Hle).
  cbv zeta. cbn [s_mousePos set_io set_mousePos ImVec2.x ImVec2.y].
  rewrite !clamp_nonneg by (apply of_Z_nonneg; lia). reflexivity.
Qed.

(** X4. In a frame with a touch the reported pointer is the first sample,
    converted to [float], cut off at the right and bottom edges of the
    display: each coordinate is the smaller of the sample and the cached
    size.  The lower bound 0 of the clamp never applies to a touch. *)
Theorem newFrame_touch_position (env : FrameEnv) (s : State) :
  (1 <= touchCount env)%N ->
  MousePos (GetIO (newFrame env s)) =
  ImVec2.mk
    (if F32.ltb (s_width s) (F32.of_Z (Z.of_N (px (touch0 env))))
     then s_width s else F32.of_Z (Z.of_N (px (touch0 env))))
    (if F32.ltb (s_height s) (F32.of_Z (Z.of_N (py (touch0 env))))
     then s_height s else F32.of_Z (Z.of_N (py (touch0 env)))).
Proof.
  intros Hle. rewrite newFrame_MousePos. apply newFrame_touch_s_mousePos, Hle.
Qed.

(** X5. A touch on the panel (x up to 1280, y up to 720) is reported at
    exactly its integer coordinates, in handheld and in docked mode alike:
    neither the conversion to [float] nor the clamp changes it. *)
Theorem newFrame_touch_on_panel_exact (env : FrameEnv) (s : State) :
  display_ok s ->
  (1 <= touchCount env)%N ->
  (px (touch0 env) <= 1280)%N ->
  (py (touch0 env) <= 720)%N ->
  F32.to_Z (ImVec2.x (MousePos (GetIO (newFrame env s))))
    = Some (Z.of_N (px (touch0 env))) /\
  F32.to_Z (ImVec2.y (MousePos (GetIO (newFrame env s))))
    = Some (Z.of_N (py (touch0 env))).
Proof.
  intros Hd Hle Hx Hy.
  rewrite newFrame_MousePos, (newFrame_touch_s_mousePos _ _ Hle).
  cbn [ImVec2.x ImVec2.y].
  destruct (proj1 (panel_coordinates_fit _) Hx) as [Hx1 Hx2].
  destruct (proj2 (panel_coordinates_fit _) Hy) as [Hy1 Hy2].
  destruct Hd as [[-> ->]|[-> ->]].
  - rewrite Hx1, Hy1. split; apply of_Z_exact_small; lia.
  - rewrite Hx2, Hy2. split; apply of_Z_exact_small; lia.
Qed.

Lemma newFrame_idle_s_mousePos env s :
  (touchCount env < 1)%N ->
  within_display (s_mousePos s) s ->
  s_mousePos (newFrame env s) = s_mousePos s.
Proof.
  intros Hlt (Hx0 & Hx1 & Hy0 & Hy1).
  rewrite newFrame_s_mousePos, (updateTouch_none _ _ _ Hlt). cbv zeta.
  rewrite (clamp_id _ _ _ Hx0 Hx1), (clamp_id _ _ _ Hy0 Hy1).
  destruct (s_mousePos s); reflexivity.
Qed.

(** X6. A frame without a touch reports the pointer where the frame before
    it left it: the last position stays, it is not reset. *)
Theorem newFrame_idle_keeps_pointer (env env' : FrameEnv) (s : State) :
  reachable s ->
  (touchCount env' < 1)%N ->
  MousePos (GetIO (newFrame env' (newFrame env s))) = MousePos (GetIO (newFrame env s)).
Proof.
  intros Hr Hlt. apply reachable_inv in Hr as [Hd Hm].
  rewrite !newFrame_MousePos.
  apply newFrame_idle_s_mousePos; [ exact Hlt | ].
  apply newFrame_within_display; assumption.
Qed.

(** X7. With a clock that does not run backwards, [DeltaTime] is a
    non-negative number: never a NaN, never below zero. *)
Theorem newFrame_DeltaTime_nonneg (env : FrameEnv) (s : State) :
  0 <= clock_now env - prev_at_call env s < 2 ^ 63 ->
  F32.is_nan (DeltaTime (GetIO (newFrame env s))) = false /\
  F32.leb f_0_0 (DeltaTime (GetIO (newFrame env s))) = true.
Proof.
  intros Hd.
  assert (Hs : f32_has_sign false (DeltaTime (GetIO (newFrame env s))) = true).
  { rewrite newFrame_DeltaTime_eq. unfold time_diff.
    fold (prev_at_call env s). rewrite wrap_s64_id by (unfold in_s64; lia).
    apply duration_float_count_nonneg. lia. }
  split; [ apply (has_sign_not_nan false), Hs | apply nonneg_leb_zero, Hs ].
Qed.

End Frame_more.

(** ** The callback and init: settings and what they leave *)

Section Mode_more.
Context {types : LibTypes} {api : LibApi}.

Lemma handleAppletHook_mode_event mode s :
  handleAppletHook AppletHookType_OnOperationMode mode s =
  match mode with
  | AppletOperationMode_Docked =>
      set_io (io_set_FontGlobalScale f_1_6 (GetIO s))
        (set_style (ScaleAllSizes (hook_scale_factor mode) (GetStyle s))
           (set_size f_1920_0 f_1080_0
              (sdk_call (Call_printf ("Switching to 1080p mode" ++ newline)) s)))
  | _ =>
      set_io (io_set_FontGlobalScale f_0_9 (GetIO s))
        (set_style (ScaleAllSizes (hook_scale_factor mode) (GetStyle s))
           (set_size f_1280_0 f_720_0
              (sdk_call (Call_printf ("Switching to 720p mode" ++ newline)) s)))
  end.
Proof. destruct mode; reflexivity. Qed.

Lemma handleAppletHook_settings_ok type mode s :
  settings_ok s -> settings_ok (handleAppletHook type mode s).
Proof.
  intros Hs. unfold handleAppletHook.
  destruct (negb _); [ exact Hs | ].
  destruct mode; [ left | right | left ]; repeat split.
Qed.

Lemma init_settings_ok env s : settings_ok (snd (init env s)).
Proof.
  pose proof (init_mode_state env s) as Hm. cbv zeta in Hm. unfold settings_ok.
  destruct (AppletOperationMode_eqb _ _); [ left | right ]; exact Hm.
Qed.

Lemma newFrame_settings_ok env s : settings_ok s -> settings_ok (newFrame env s).
Proof.
  unfold settings_ok.
  destruct (newFrame_size env s) as [-> ->].
  destruct (newFrame_io_untouched env s) as (_ & _ & _ & -> & _). auto.
Qed.

Lemma run_op_settings_ok op s : settings_ok s -> settings_ok (run_op s op).
Proof.
  intros Hs. destruct op as [env|env| |type mode]; cbn [run_op].
  - apply init_settings_ok.
  - apply newFrame_settings_ok, Hs.
  - exact Hs.
  - apply handleAppletHook_settings_ok, Hs.
Qed.

Lemma run_settings_ok ops : forall s, settings_ok s -> settings_ok (run ops s).
Proof.
  induction ops as [|op ops IH]; intros s Hs; simpl.
  - exact Hs.
  - apply IH, run_op_settings_ok, Hs.
Qed.

(** X2. Once init has run, the font global scale always belongs to the same
    mode as the cached display size: 1280 x 720 with 0.9, or 1920 x 1080 with
    1.6, after any further calls and callback deliveries. *)
Theorem settings_consistent_after_init (env : InitEnv) (s : State) (ops : list Op) :
  settings_ok (run ops (snd (init env s))).
Proof. apply run_settings_ok, init_settings_ok. Qed.

(** X12. The callback does not look at the mode it is already in.  A second
    delivery for the same mode leaves the display size and the font scale as
    the first one set them, but scales the style a second time and prints a
    second line. *)
Theorem handleAppletHook_repeated_delivery (mode : AppletOperationMode) (s : State) :
  let s1 := handleAppletHook AppletHookType_OnOperationMode mode s in
  let s2 := handleAppletHook AppletHookType_OnOperationMode mode s1 in
  s_width s2 = s_width s1 /\
  s_height s2 = s_height s1 /\
  FontGlobalScale (GetIO s2) = FontGlobalScale (GetIO s1) /\
  GetIO s2 = GetIO s1 /\
  GetStyle s2 =
    ScaleAllSizes (hook_scale_factor mode)
      (ScaleAllSizes (hook_scale_factor mode) (GetStyle s)) /\
  count_calls SdkCall_is_printf (sdk_log s2)
    = (2 + count_calls SdkCall_is_printf (sdk_log s))%nat.
Proof.
  cbv zeta. rewrite !handleAppletHook_mode_event.
  assert (Hc : forall l a b,
             count_calls SdkCall_is_printf ((l ++ [Call_printf a]) ++ [Call_printf b])
             = (2 + count_calls SdkCall_is_printf l)%nat).
  { intros l a b. induction l as [|c l IH]; simpl; [ reflexivity | ].
    rewrite IH. lia. }
  destruct mode; cbn [s_width s_height GetIO GetStyle sdk_log set_io set_style
    set_size sdk_call FontGlobalScale io_set_FontGlobalScale];
    repeat split; apply Hc.
Qed.

(** X13. Of the I/O structure the callback writes the font global scale and
    nothing else, for every event type and mode; it leaves the cached pointer
    position and the statics of newFrame as they are. *)
Theorem handleAppletHook_io_frame (type : AppletHookType)
    (mode : AppletOperationMode) (s : State) :
  let s' := handleAppletHook type mode s in
  GetIO s' = io_set_FontGlobalScale (FontGlobalScale (GetIO s')) (GetIO s) /\
  s_mousePos s' = s_mousePos s /\
  newFrame_statics s' = newFrame_statics s.
Proof.
  cbv zeta. unfold handleAppletHook.
  destruct (negb _).
  - destruct s as [w h p c io st log]. destruct io. repeat split.
  - destruct mode; repeat split.
Qed.

Lemma lor_keeps_bits a b : Z.land (Z.lor a b) a = a /\ Z.land (Z.lor a b) b = b.
Proof.
  split; apply Z.bits_inj'; intros n Hn;
    rewrite Z.land_spec, Z.lor_spec;
    destruct (Z.testbit a n), (Z.testbit b n); reflexivity.
Qed.

(** X11. After init the ini file is disabled, the mouse cursor is not drawn,
    and the config flags contain the touch-screen flag together with every
    flag that was set before. *)
Theorem init_io_configuration (env : InitEnv) (s : State) :
  let io' := GetIO (snd (init env s)) in
  IniFilename io' = None /\
  MouseDrawCursor io' = false /\
  Z.land (ConfigFlags io') ImGuiConfigFlags_IsTouchScreen
    = ImGuiConfigFlags_IsTouchScreen /\
  Z.land (ConfigFlags io') (ConfigFlags (GetIO s)) = ConfigFlags (GetIO s).
Proof.
  cbv zeta. unfold init.
  destruct (lor_keeps_bits (ConfigFlags (GetIO s)) ImGuiConfigFlags_IsTouchScreen)
    as [Hold Hflag].
  destruct (AppletOperationMode_eqb _ _); repeat split; assumption.
Qed.

(** X14. init does not reset the frame state: the cached pointer position,
    the statics of newFrame, and the display size, delta time, pointer
    position and buttons last written to the I/O structure are the ones it
    was called with. *)
Theorem init_keeps_frame_state (env : InitEnv) (s : State) :
  let s' := snd (init env s) in
  s_mousePos s' = s_mousePos s /\
  newFrame_statics s' = newFrame_statics s /\
  DisplaySize (GetIO s') = DisplaySize (GetIO s) /\
  DisplayFramebufferScale (GetIO s') = DisplayFramebufferScale (GetIO s) /\
  DeltaTime (GetIO s') = DeltaTime (GetIO s) /\
  MousePos (GetIO s') = MousePos (GetIO s) /\
  MouseDown (GetIO s') = MouseDown (GetIO s).
Proof.
  cbv zeta. unfold init.
  destruct (AppletOperationMode_eqb _ _); repeat split.
Qed.

End Mode_more.

(** ** Whole runs *)

Section Run_more.
Context {types : LibTypes} {api : LibApi}.

(** Both coordinates of the cached pointer are numbers of sign [+]. *)
Lemma newFrame_pointer_sign env s :
  display_ok s ->
  f32_has_sign false (ImVec2.x (s_mousePos s)) = true /\
  f32_has_sign false (ImVec2.y (s_mousePos s)) = true ->
  f32_has_sign false (ImVec2.x (s_mousePos (newFrame env s))) = true /\
  f32_has_sign false (ImVec2.y (s_mousePos (newFrame env s))) = true.
Proof.
  intros Hd [Hx Hy].
  assert (Hw : f32_has_sign false (s_width s) = true /\
               f32_has_sign false (s_height s) = true)
    by (destruct Hd as [[-> ->]|[-> ->]]; split; reflexivity).
  destruct Hw as [Hw Hh].
  assert (Hu : f32_has_sign false
                 (ImVec2.x (s_mousePos (updateTouch (touchCount env) (touch0 env) s)))
               = true /\
               f32_has_sign false
                 (ImVec2.y (s_mousePos (updateTouch (touchCount env) (touch0 env) s)))
               = true).
  { unfold updateTouch. destruct (touchCount env <? 1)%N; [ tauto | ].
    split; apply of_Z_nonneg; lia. }
  destruct Hu as [Hux Huy].
  rewrite newFrame_s_mousePos. cbv zeta. cbn [ImVec2.x ImVec2.y].
  rewrite (clamp_nonneg _ _ Hux), (clamp_nonneg _ _ Huy).
  split; [ destruct (F32.ltb (s_width s) _) | destruct (F32.ltb (s_height s) _) ];
    assumption.
Qed.

Lemma run_op_pointer_sign op s :
  display_ok s /\
  f32_has_sign false (ImVec2.x (s_mousePos s)) = true /\
  f32_has_sign false (ImVec2.y (s_mousePos s)) = true ->
  display_ok (run_op s op) /\
  f32_has_sign false (ImVec2.x (s_mousePos (run_op s op))) = true /\
  f32_has_sign false (ImVec2.y (s_mousePos (run_op s op))) = true.
Proof.
  intros [Hd Hp]. destruct op as [env|env| |type mode]; cbn [run_op].
  - split; [ apply init_display_ok | ].
    destruct (init_frame env s) as [-> _]. exact Hp.
  - split; [ apply newFrame_display_ok, Hd | apply newFrame_pointer_sign; assumption ].
  - split; assumption.
  - split; [ apply handleAppletHook_display_ok, Hd | ].
    destruct (handleAppletHook_frame type mode s) as [-> _]. exact Hp.
Qed.

Lemma run_pointer_sign ops : forall s,
  display_ok s /\
  f32_has_sign false (ImVec2.x (s_mousePos s)) = true /\
  f32_has_sign false (ImVec2.y (s_mousePos s)) = true ->
  display_ok (run ops s) /\
  f32_has_sign false (ImVec2.x (s_mousePos (run ops s))) = true /\
  f32_has_sign false (ImVec2.y (s_mousePos (run ops s))) = true.
Proof.
  induction ops as [|op ops IH]; intros s Hs; simpl.
  - exact Hs.
  - apply IH, run_op_pointer_sign, Hs.
Qed.

(** X1. In every state the program can reach, the cached display size is
    1280 x 720 or 1920 x 1080, never a mix of the two, and both coordinates
    of the cached pointer position are non-negative numbers (not NaN, not
    below zero). *)
Theorem reachable_display_and_pointer (s : State) :
  reachable s ->
  display_ok s /\
  F32.leb f_0_0 (ImVec2.x (s_mousePos s)) = true /\
  F32.leb f_0_0 (ImVec2.y (s_mousePos s)) = true.
Proof.
  intros (io0 & style0 & ops & ->).
  destruct (run_pointer_sign ops (initial io0 style0)) as (Hd & Hx & Hy).
  { split; [ left; split; reflexivity | split; reflexivity ]. }
  split; [ exact Hd | split; apply nonneg_leb_zero; assumption ].
Qed.

Lemma updateTouch_MouseDown_other tc pos s (i : nat) :
  i <> 0%nat ->
  MouseDown (GetIO (updateTouch tc pos s)) !! i = MouseDown (GetIO s) !! i.
Proof.
  intros Hi. unfold updateTouch. destruct (tc <? 1)%N; [ reflexivity | ].
  simpl. apply list_lookup_insert_ne. congruence.
Qed.

Lemma run_op_MouseDown_other op s (i : nat) :
  i <> 0%nat ->
  MouseDown (GetIO (run_op s op)) !! i = MouseDown (GetIO s) !! i.
Proof.
  intros Hi. destruct op as [env|env| |type mode]; cbn [run_op].
  - destruct (init_frame env s) as (_ & _ & ->). reflexivity.
  - rewrite newFrame_MouseDown. apply updateTouch_MouseDown_other, Hi.
  - reflexivity.
  - destruct (handleAppletHook_frame type mode s) as (_ & _ & ->). reflexivity.
Qed.

Lemma run_MouseDown_length ops : forall s,
  length (MouseDown (GetIO (run ops s))) = length (MouseDown (GetIO s)).
Proof.
  induction ops as [|op ops IH]; intros s; simpl; [ reflexivity | ].
  rewrite IH. destruct op as [env|env| |type mode]; cbn [run_op].
  - destruct (init_frame env s) as (_ & _ & ->). reflexivity.
  - rewrite newFrame_MouseDown. apply updateTouch_MouseDown_length.
  - reflexivity.
  - destruct (handleAppletHook_frame type mode s) as (_ & _ & ->). reflexivity.
Qed.

(** X8. The file writes mouse button 0 only: over any run the buttons 1 to 4
    keep the values they had, and [MouseDown] keeps its length. *)
Theorem run_other_buttons_untouched (ops : list Op) (s : State) (i : nat) :
  i <> 0%nat ->
  MouseDown (GetIO (run ops s)) !! i = MouseDown (GetIO s) !! i /\
  length (MouseDown (GetIO (run ops s))) = length (MouseDown (GetIO s)).
Proof.
  intros Hi. split; [ | apply run_MouseDown_length ].
  revert s. induction ops as [|op ops IH]; intros s; simpl; [ reflexivity | ].
  rewrite IH. apply run_op_MouseDown_other, Hi.
Qed.

Lemma count_calls_app p l1 l2 :
  count_calls p (l1 ++ l2) = (count_calls p l1 + count_calls p l2)%nat.
Proof.
  induction l1 as [|c l1 IH]; simpl; [ reflexivity | rewrite IH; lia ].
Qed.

Lemma count_calls_hook l : count_calls SdkCall_is_hook l = count_hook l.
Proof. induction l as [|c l IH]; simpl; [ reflexivity | rewrite IH; reflexivity ]. Qed.

Lemma handleAppletHook_sdk_log type mode s :
  sdk_log (handleAppletHook type mode s) =
  sdk_log s ++
  (if AppletHookType_eqb type AppletHookType_OnOperationMode then
     match mode with
     | AppletOperationMode_Docked => [Call_printf ("Switching to 1080p mode" ++ newline)]
     | _ => [Call_printf ("Switching to 720p mode" ++ newline)]
     end
   else []).
Proof.
  unfold handleAppletHook.
  destruct (AppletHookType_eqb _ _); simpl.
  - destruct mode; reflexivity.
  - symmetry. apply app_nil_r.
Qed.

Lemma run_op_counts op s :
  count_calls SdkCall_is_hook (sdk_log (run_op s op))
    = (count_calls SdkCall_is_hook (sdk_log s) + if Op_is_init op then 1 else 0)%nat /\
  count_calls SdkCall_is_unhook (sdk_log (run_op s op))
    = (count_calls SdkCall_is_unhook (sdk_log s) + if Op_is_exit op then 1 else 0)%nat /\
  count_calls SdkCall_is_printf (sdk_log (run_op s op))
    = (count_calls SdkCall_is_printf (sdk_log s)
       + if Op_is_mode_event op then 1 else 0)%nat.
Proof.
  destruct op as [env|env| |type mode]; cbn [run_op Op_is_init Op_is_exit
    Op_is_mode_event].
  - rewrite init_sdk_log, !count_calls_app. simpl. lia.
  - destruct (newFrame_state_untouched env s) as [_ ->]. lia.
  - unfold exit. cbn [sdk_log sdk_call]. rewrite !count_calls_app. simpl. lia.
  - rewrite handleAppletHook_sdk_log, !count_calls_app.
    destruct (AppletHookType_eqb _ _); [ destruct mode | ]; simpl; lia.
Qed.

(** X9. Over any run the SDK log holds one [appletHook] per call of init,
    one [appletUnhook] per call of exit and one printed line per delivery of
    an operation-mode event; newFrame and other events log nothing. *)
Theorem run_sdk_call_counts (ops : list Op) (s : State) :
  count_calls SdkCall_is_hook (sdk_log (run ops s))
    = (count_calls SdkCall_is_hook (sdk_log s) + count_ops Op_is_init ops)%nat /\
  count_calls SdkCall_is_unhook (sdk_log (run ops s))
    = (count_calls SdkCall_is_unhook (sdk_log s) + count_ops Op_is_exit ops)%nat /\
  count_calls SdkCall_is_printf (sdk_log (run ops s))
    = (count_calls SdkCall_is_printf (sdk_log s)
       + count_ops Op_is_mode_event ops)%nat.
Proof.
  revert s. induction ops as [|op ops IH]; intros s; simpl.
  - repeat split; lia.
  - destruct (IH (run_op s op)) as (-> & -> & ->).
    destruct (run_op_counts op s) as (-> & -> & ->).
    repeat split; lia.
Qed.

Lemma run_op_start op s start prev :
  newFrame_statics s = Some (start, prev) ->
  exists prev', newFrame_statics (run_op s op) = Some (start, prev').
Proof.
  intros Hs. destruct op as [env|env| |type mode]; cbn [run_op].
  - destruct (init_frame env s) as (_ & -> & _). eauto.
  - rewrite newFrame_statics_eq. unfold statics_after_decl. rewrite Hs. eauto.
  - eauto.
  - destruct (handleAppletHook_frame type mode s) as (_ & -> & _). eauto.
Qed.

Lemma run_start ops : forall s start prev,
  newFrame_statics s = Some (start, prev) ->
  exists prev', newFrame_statics (run ops s) = Some (start, prev').
Proof.
  induction ops as [|op ops IH]; intros s start prev Hs; simpl.
  - eauto.
  - destruct (run_op_start op s start prev Hs) as [prev' Hs']. eapply IH, Hs'.
Qed.

(** X10. The static [start] is set by the first newFrame and never again:
    after any further run it still holds the reading taken then, and a later
    newFrame ignores the reading offered for it. *)
Theorem newFrame_start_fixed (env : FrameEnv) (s : State) (ops : list Op) :
  newFrame_statics s = None ->
  exists prev,
    newFrame_statics (run ops (newFrame env s)) = Some (clock_start env, prev) /\
    forall env' : FrameEnv,
      fst (statics_after_decl env' (run ops (newFrame env s))) = clock_start env.
Proof.
  intros Hnone.
  assert (H0 : newFrame_statics (newFrame env s) = Some (clock_start env, clock_now env)).
  { rewrite newFrame_statics_eq. unfold statics_after_decl. rewrite Hnone. reflexivity. }
  destruct (run_start ops _ _ _ H0) as [prev Hp].
  exists prev. split; [ exact Hp | ].
  intros env'. unfold statics_after_decl. rewrite Hp. reflexivity.
Qed.

End Run_more.

(** ** Mode changes and the next frame *)

Section Compose_more.
Context {types : LibTypes} {api : LibApi}.

(** X15. The callback does not update the display size in the I/O
    structure: a mode change reaches [io.DisplaySize] at the next newFrame,
    which then reports 1920 x 1080 for docked mode and 1280 x 720 for every
    other mode. *)
Theorem mode_change_shows_at_next_frame (mode : AppletOperationMode)
    (env : FrameEnv) (s : State) :
  let s1 := handleAppletHook AppletHookType_OnOperationMode mode s in
  DisplaySize (GetIO s1) = DisplaySize (GetIO s) /\
  DisplaySize (GetIO (newFrame env s1)) =
    match mode with
    | AppletOperationMode_Docked => ImVec2.mk f_1920_0 f_1080_0
    | _ => ImVec2.mk f_1280_0 f_720_0
    end.
Proof.
  cbv zeta. split.
  - destruct mode; reflexivity.
  - destruct (newFrame_display env
                (handleAppletHook AppletHookType_OnOperationMode mode s)) as [-> _].
    destruct mode; reflexivity.
Qed.

(** X16. When the clock reading equals the stored previous time point,
    [DeltaTime] is exactly [+0]. *)
Theorem newFrame_DeltaTime_zero (env : FrameEnv) (s : State) :
  clock_now env = prev_at_call env s ->
  DeltaTime (GetIO (newFrame env s)) = S754_zero false.
Proof.
  intros E. rewrite newFrame_DeltaTime_eq. unfold time_diff.
  fold (prev_at_call env s). rewrite E, Z.sub_diag. reflexivity.
Qed.

End Compose_more.

(** ** The further properties at concrete inputs *)

Section Samples_more.
#[local] Existing Instance sample_types.
#[local] Existing Instance sample_api.

Lemma reachable_display_and_pointer_witness :
  reachable sample_docked_touched /\
  display_ok sample_docked_touched /\
  F32.leb f_0_0 (ImVec2.x (s_mousePos sample_docked_touched)) = true.
Proof.
  destruct (reachable_display_and_pointer sample_docked_touched
              sample_docked_touched_reachable) as (Hd & Hx & _).
  split; [ exact sample_docked_touched_reachable | split; assumption ].
Defined.

Lemma newFrame_touch_position_witness :
  (1 <= touchCount sample_frame_touch)%N /\
  MousePos (GetIO (newFrame sample_frame_touch sample_state)) =
    ImVec2.mk f_1280_0 (F32.of_Z 300).
Proof.
  assert (Hle : (1 <= touchCount sample_frame_touch)%N) by (simpl; lia).
  split; [ exact Hle | ].
  exact (newFrame_touch_position sample_frame_touch sample_state Hle).
Defined.

Lemma newFrame_touch_on_panel_exact_witness :
  display_ok sample_state /\
  (1 <= touchCount sample_frame_centre)%N /\
  (px (touch0 sample_frame_centre) <= 1280)%N /\
  (py (touch0 sample_frame_centre) <= 720)%N /\
  F32.to_Z (ImVec2.x (MousePos (GetIO (newFrame sample_frame_centre sample_state))))
    = Some 640 /\
  F32.to_Z (ImVec2.y (MousePos (GetIO (newFrame sample_frame_centre sample_state))))
    = Some 360.
Proof.
  assert (Hd : display_ok sample_state) by (left; split; reflexivity).
  assert (Hle : (1 <= touchCount sample_frame_centre)%N) by (simpl; lia).
  assert (Hx : (px (touch0 sample_frame_centre) <= 1280)%N) by (simpl; lia).
  assert (Hy : (py (touch0 sample_frame_centre) <= 720)%N) by (simpl; lia).
  pose proof (newFrame_touch_on_panel_exact sample_frame_centre sample_state
                Hd Hle Hx Hy) as Hres.
  split; [ exact Hd | split; [ exact Hle | split; [ exact Hx | split;
    [ exact Hy | exact Hres ] ] ] ].
Defined.

Lemma newFrame_idle_keeps_pointer_witness :
  reachable sample_docked_touched /\
  (touchCount sample_frame_idle < 1)%N /\
  MousePos (GetIO (newFrame sample_frame_idle
                     (newFrame sample_frame_centre sample_docked_touched)))
    = MousePos (GetIO (newFrame sample_frame_centre sample_docked_touched)).
Proof.
  assert (Hlt : (touchCount sample_frame_idle < 1)%N) by (simpl; lia).
  split; [ exact sample_docked_touched_reachable | split; [ exact Hlt | ] ].
  exact (newFrame_idle_keeps_pointer sample_frame_centre sample_frame_idle
           sample_docked_touched sample_docked_touched_reachable Hlt).
Defined.

Lemma newFrame_DeltaTime_nonneg_witness :
  0 <= clock_now sample_frame_touch - prev_at_call sample_frame_touch sample_state
    < 2 ^ 63 /\
  F32.leb f_0_0 (DeltaTime (GetIO (newFrame sample_frame_touch sample_state))) = true.
Proof.
  assert (Hd : 0 <= clock_now sample_frame_touch
                    - prev_at_call sample_frame_touch sample_state < 2 ^ 63)
    by (vm_compute; split; [ discriminate | reflexivity ]).
  split; [ exact Hd | ].
  exact (proj2 (newFrame_DeltaTime_nonneg sample_frame_touch sample_state Hd)).
Defined.

Lemma run_other_buttons_untouched_witness :
  1%nat <> 0%nat /\
  MouseDown (GetIO (run [Op_newFrame sample_frame_touch; Op_newFrame sample_frame_idle]
                      sample_state)) !! 1%nat = Some false.
Proof.
  assert (Hi : 1%nat <> 0%nat) by (intros E; discriminate E).
  split; [ exact Hi | ].
  exact (proj1 (run_other_buttons_untouched
                  [Op_newFrame sample_frame_touch; Op_newFrame sample_frame_idle]
                  sample_state 1%nat Hi)).
Defined.

Lemma newFrame_start_fixed_witness :
  newFrame_statics sample_state = None /\
  exists prev,
    newFrame_statics (run [Op_newFrame sample_frame_idle]
                        (newFrame sample_frame_touch sample_state))
    = Some (5000000000, prev).
Proof.
  split; [ reflexivity | ].
  destruct (newFrame_start_fixed sample_frame_touch sample_state
              [Op_newFrame sample_frame_idle] eq_refl) as [prev [Hp _]].
  exists prev. exact Hp.
Defined.

Lemma newFrame_DeltaTime_zero_witness :
  clock_now sample_frame_idle
    = prev_at_call sample_frame_idle
        (set_statics (Some (0, 5033000000)) sample_state) /\
  DeltaTime (GetIO (newFrame sample_frame_idle
                      (set_statics (Some (0, 5033000000)) sample_state)))
    = S754_zero false.
Proof.
  split; [ reflexivity | ].
  exact (newFrame_DeltaTime_zero sample_frame_idle
           (set_statics (Some (0, 5033000000)) sample_state) eq_refl).
Defined.

End Samples_more.
